(** * CryptoBet wagering engine: a shallow embedding of the server

    The development follows [server/routes.ts] and [server/storage.ts].

    - JavaScript numbers are read as exact canonical rationals ([Qc]):
      [+], [-], [*], [/], [<], [>=], [Math.floor], [Math.min], [Math.max]
      and [Math.pow] with a natural exponent are the exact operations,
      the rounding of binary64 is not part of the model.  Amounts that the
      storage keeps as decimal strings are kept as the number they denote
      ([parseFloat (x.toString()) = x] on every finite number).
    - The storage follows [MemStorage], the in-memory implementation of
      [IStorage]: each JavaScript [Map] keyed by a fresh UUID is the list
      of its values in insertion order.  [DbStorage] offers the same
      interface over SQL tables; the rounding of its [decimal(18, 8)]
      columns and the failures of the database are not modelled.
      Timestamps and the free-form text columns ([betChoice], [result],
      [description]) are written by the handlers and never read back; they
      are left out of the records.
    - The three session stores are the [Map<string, _>] objects of
      [routes.ts], keyed by user id.
    - [Math.random()] and [Date.now()] are inputs of the handlers that
      consume them.
    - A handler is a function from the state to a reply and the next state.
      Requests are served one at a time.
    - Registration, login, the wallet address and the listings (bets,
      transactions, stats) do not touch a balance or a session and are left
      out, as are the [users] and [deposits] tables; of a deposit the model
      has the timer callback that confirms it. *)

From Stdlib Require Import QArith Qcanon Qround ZArith Lia Ascii String.
From stdpp Require Import gmap strings list.

Local Open Scope Qc_scope.

(** ** Numbers *)

(** The decimal literal [n / d]. *)
Definition dec (n : Z) (d : positive) : Qc := Q2Qc (n # d).

(** [Number.isInteger]. *)
Definition isInteger (x : Qc) : bool := bool_decide (Qc_of_Z (Qfloor x) = x).

Definition Math_floor (x : Qc) : Qc := Qc_of_Z (Qfloor x).

Definition Math_min (a b : Qc) : Qc := if bool_decide (a ≤ b) then a else b.

Definition Math_max (a b : Qc) : Qc := if bool_decide (a ≤ b) then b else a.

(** [Math.pow(x, n)] for a length [n]. *)
Definition Math_pow (x : Qc) (n : nat) : Qc := x ^ n.

(** [Array.prototype.includes] on an array of numbers. *)
Definition includes (l : list Qc) (x : Qc) : bool := bool_decide (x ∈ l).

(** ** Request bodies *)

(** A field of a parsed JSON body: a number, a string, or anything else
    (absent, [null], a boolean, an object). *)
Inductive JsonValue :=
| JNumber (x : Qc)
| JString (s : string)
| JNull.

Definition digitOf (c : ascii) : option Z :=
  let n := Z.of_nat (nat_of_ascii c) in
  if bool_decide (48 ≤ n ≤ 57)%Z then Some (n - 48)%Z else None.

(** The value of a run of decimal digits, [None] if another character
    occurs in it. *)
Fixpoint digitsValue (acc : Z) (l : list ascii) : option Z :=
  match l with
  | [] => Some acc
  | c :: l' =>
      match digitOf c with
      | Some d => digitsValue (10 * acc + d) l'
      | None => None
      end
  end.

(** Splits at the first ["."]: the part before it and, when there is one,
    the part after it. *)
Fixpoint splitDot (l : list ascii) : list ascii * option (list ascii) :=
  match l with
  | [] => ([], None)
  | c :: l' =>
      if bool_decide (c = "."%char) then ([], Some l')
      else let '(a, b) := splitDot l' in (c :: a, b)
  end.

(** A string matching [/^\d+(\.\d{1,8})?$/], as the number [Number(s)];
    [None] when the string does not match. *)
Definition decimalOfString (s : string) : option Qc :=
  let '(ip, fp) := splitDot (list_ascii_of_string s) in
  match ip with
  | [] => None
  | _ =>
      match digitsValue 0 ip, fp with
      | Some i, None => Some (Qc_of_Z i)
      | Some i, Some f =>
          if bool_decide (1 ≤ length f ≤ 8)%nat then
            match digitsValue 0 f with
            | Some v =>
                Some (Qc_of_Z i
                      + Qc_of_Z v / Qc_of_Z (10 ^ Z.of_nat (length f)))
            | None => None
            end
          else None
      | None, _ => None
      end
  end.

(** [x.toString()] matches [/^\d+(\.\d{1,8})?$/] for a positive number [x]
    of at most a million: the number prints without an exponent (it is at
    least [1e-6]) and has at most eight fractional digits. *)
Definition printsAsDecimal (x : Qc) : bool :=
  bool_decide (dec 1 1000000 ≤ x) && isInteger (x * Qc_of_Z 100000000).

(** The [betAmount] schema shared by [towerStartSchema], [crashStartSchema],
    [dicePlaySchema] and [minesStartSchema]: a number is checked and printed
    by the preprocessor, then the string is matched, converted back and
    refined to [0 < val <= 1000000]. *)
Definition betAmountSchema (v : JsonValue) : option Qc :=
  match v with
  | JNumber x =>
      if bool_decide (x ≤ 0) || bool_decide (Qc_of_Z 1000000 < x) then None
      else if printsAsDecimal x then Some x else None
  | JString s =>
      match decimalOfString s with
      | Some x =>
          if bool_decide (0 < x) && bool_decide (x ≤ Qc_of_Z 1000000)
          then Some x else None
      | None => None
      end
  | JNull => None
  end.

(** [z.number().min(lo).max(hi)]. *)
Definition numberSchema (lo hi : Qc) (v : JsonValue) : option Qc :=
  match v with
  | JNumber x =>
      if bool_decide (lo ≤ x) && bool_decide (x ≤ hi) then Some x else None
  | _ => None
  end.

(** ** Replies *)

(** The refusals of the handlers.  [routes.ts] answers them with status 400
    and a message; the constructor names are those of the specification:
    - a [ZodError] is a [ValidationError];
    - ['Insufficient balance'] is [InsufficientFunds];
    - ['You already have an active ... game'] is [SessionAlreadyActive];
    - ['No active ... game found'] is [NoActiveSession];
    - ['Already cashed out'] is [AlreadyCashedOut];
    - ['Must reveal at least one tile before cashing out'] is
      [NothingToCashOut];
    - ['Maximum level reached'] and ['Tile already revealed'] are
      [InvalidMove]. *)
Inductive Error :=
| ValidationError
| InsufficientFunds
| SessionAlreadyActive
| NoActiveSession
| AlreadyCashedOut
| NothingToCashOut
| InvalidMove.

Inductive Result (A : Type) :=
| Ok (a : A)
| Err (e : Error).
Arguments Ok {A} a.
Arguments Err {A} e.

(** ** Ledger store: [MemStorage] *)

Inductive Outcome := win | loss.

Inductive TxType := TxDeposit | TxBet | TxWin.

Record Balance := mkBalance {
  bal_id : nat;
  bal_userId : string;
  bal_amount : Qc;
  bal_currency : string
}.

Record Bet := mkBet {
  bet_id : nat;
  bet_userId : string;
  bet_gameType : string;
  bet_betAmount : Qc;
  bet_outcome : Outcome;
  bet_payout : Qc
}.

Record Transaction := mkTransaction {
  tx_id : nat;
  tx_userId : string;
  tx_type : TxType;
  tx_amount : Qc
}.

(** [uuid] counts the identifiers handed out so far, standing for
    [randomUUID()]. *)
Record MemStorage := mkStorage {
  balances : list Balance;
  bets : list Bet;
  transactions : list Transaction;
  uuid : nat
}.

Definition emptyStorage : MemStorage := mkStorage [] [] [] 0.

Module Storage.

(** [Array.from(this.balances.values()).find(b => b.userId === userId)] *)
Definition getBalance (userId : string) (st : MemStorage) : option Balance :=
  List.find (λ b, bool_decide (bal_userId b = userId)) (balances st).

(** [createBalance]: [insertBalance.amount || "0"] and
    [insertBalance.currency || "USDT"] are passed by the caller. *)
Definition createBalance (userId : string) (amount : Qc) (currency : string)
    (st : MemStorage) : Balance * MemStorage :=
  let b := mkBalance (uuid st) userId amount currency in
  (b, mkStorage (balances st ++ [b]) (bets st) (transactions st) (S (uuid st))).

(** The assignment [existingBalance.amount = amount] on the record that
    [getBalance] found: the first one of the user. *)
Fixpoint setAmount (userId : string) (amount : Qc) (l : list Balance)
    : list Balance :=
  match l with
  | [] => []
  | b :: l' =>
      if bool_decide (bal_userId b = userId)
      then mkBalance (bal_id b) (bal_userId b) amount (bal_currency b) :: l'
      else b :: setAmount userId amount l'
  end.

Definition updateBalance (userId : string) (amount : Qc) (st : MemStorage)
    : MemStorage :=
  match getBalance userId st with
  | Some _ =>
      mkStorage (setAmount userId amount (balances st)) (bets st)
        (transactions st) (uuid st)
  | None =>
      mkStorage (balances st ++ [mkBalance (uuid st) userId amount "USDT"])
        (bets st) (transactions st) (S (uuid st))
  end.

Definition createBet (userId gameType : string) (betAmount : Qc)
    (outcome : Outcome) (payout : Qc) (st : MemStorage) : MemStorage :=
  mkStorage (balances st)
    (bets st ++ [mkBet (uuid st) userId gameType betAmount outcome payout])
    (transactions st) (S (uuid st)).

Definition createTransaction (userId : string) (type : TxType) (amount : Qc)
    (st : MemStorage) : MemStorage :=
  mkStorage (balances st) (bets st)
    (transactions st ++ [mkTransaction (uuid st) userId type amount])
    (S (uuid st)).

(** [parseFloat(balance?.amount || '0')] *)
Definition amountOrZero (b : option Balance) : Qc :=
  match b with
  | Some b => bal_amount b
  | None => 0
  end.

End Storage.

(** ** Session stores and the state of the server *)

Record TowerGame := mkTowerGame {
  tg_userId : string;
  tg_betAmount : Qc;
  tg_currentLevel : nat;
  tg_currentMultiplier : Qc;
  tg_isActive : bool
}.

Record CrashGame := mkCrashGame {
  cg_betAmount : Qc;
  cg_startTime : Z;
  cg_crashPoint : Qc;
  cg_isActive : bool;
  cg_cashedOut : bool;
  cg_cashoutMultiplier : option Qc
}.

Record MinesGame := mkMinesGame {
  mg_betAmount : Qc;
  mg_mineCount : Qc;
  mg_gridSize : Qc;
  mg_minePositions : list Qc;
  mg_revealedTiles : list Qc;
  mg_isActive : bool;
  mg_currentMultiplier : Qc
}.

Record State := mkState {
  storage : MemStorage;
  towerGames : gmap string TowerGame;
  crashGames : gmap string CrashGame;
  minesGames : gmap string MinesGame
}.

Definition initialState : State := mkState emptyStorage ∅ ∅ ∅.

Definition withStorage (st : MemStorage) (s : State) : State :=
  mkState st (towerGames s) (crashGames s) (minesGames s).

Definition withTower (m : gmap string TowerGame) (s : State) : State :=
  mkState (storage s) m (crashGames s) (minesGames s).

Definition withCrash (m : gmap string CrashGame) (s : State) : State :=
  mkState (storage s) (towerGames s) m (minesGames s).

Definition withMines (m : gmap string MinesGame) (s : State) : State :=
  mkState (storage s) (towerGames s) (crashGames s) m.

(** The amount [getBalance] reads for a user, if there is a record. *)
Definition balanceOf (userId : string) (s : State) : option Qc :=
  bal_amount <$> Storage.getBalance userId (storage s).

Inductive Difficulty := easy | medium | hard.

Inductive Direction := over | under.

(** What a single-shot bet shows as [result]: the number on the wheel or
    the side of the coin. *)
Inductive BetResult :=
| Wheel (n : Z)
| Coin (side : string).

(** The JSON bodies of the 200 answers, one constructor for each shape:
    - [TowerWon] is [{outcome: 'win', ...}], [TowerLost] is
      [{outcome: 'loss', ...}];
    - [CrashCrashed] is the [{crashed: true, crashPoint, payout: 0}] of a
      cash-out that came too late, [CrashCashedOut] its
      [{crashed: false, ...}];
    - [CrashAutoCrashed] is the
      [{hasActiveGame: false, crashed: true, crashPoint}] of a status poll;
    - [MinesHit] is [{hitMine: true, ...}], [MinesSafe] is
      [{hitMine: false, ...}];
    - the [...StatusReply] constructors are the [{hasActiveGame: true, ...}]
      answers and [NoActiveGame] is [{hasActiveGame: false}];
    - [CallbackDone] stands for the end of a timer callback, which answers
      nobody. *)
Inductive Reply :=
| BalanceReply (amount : Qc) (currency : string)
| BetReply (result : BetResult) (outcome : Outcome) (payout : Qc)
| TowerStarted (currentLevel : nat) (currentMultiplier potentialPayout : Qc)
| TowerWon (currentLevel : nat) (currentMultiplier potentialPayout : Qc)
    (maxLevel : bool)
| TowerLost (currentLevel : nat) (lostAmount : Qc)
| TowerCashedOut (payout : Qc) (level : nat) (multiplier : Qc)
| TowerStatusReply (currentLevel : nat)
    (currentMultiplier potentialPayout betAmount : Qc)
| CrashStarted (startTime : Z) (betAmount : Qc)
| CrashCrashed (crashPoint payout : Qc)
| CrashCashedOut (multiplier payout crashPoint : Qc)
| CrashAutoCrashed (crashPoint : Qc)
| CrashStatusReply (currentMultiplier betAmount potentialPayout : Qc)
    (startTime : Z)
| DiceReply (roll : Qc) (won : bool) (payout target : Qc)
    (direction : Direction)
| MinesStarted (gridSize mineCount betAmount : Qc)
| MinesHit (tileIndex : Qc) (minePositions : list Qc) (payout : Qc)
| MinesSafe (tileIndex : Qc) (revealedTiles : list Qc)
    (currentMultiplier potentialPayout : Qc)
| MinesCashedOut (payout multiplier : Qc)
| MinesStatusReply (revealedTiles : list Qc)
    (currentMultiplier potentialPayout betAmount mineCount gridSize : Qc)
| NoActiveGame
| CallbackDone.

(** ** Balance and deposits *)

(** [GET /api/balance] *)
Definition getBalanceRoute (userId : string) (s : State)
    : Result Reply * State :=
  match Storage.getBalance userId (storage s) with
  | Some balance =>
      (Ok (BalanceReply (bal_amount balance) (bal_currency balance)), s)
  | None =>
      let '(balance, st) := Storage.createBalance userId 0 "USDT" (storage s) in
      (Ok (BalanceReply (bal_amount balance) (bal_currency balance)),
       withStorage st s)
  end.

(** The timer callback of [POST /api/deposit], two seconds after the
    request: the balance write and the [deposit] transaction.
    [depositSchema] is derived from the [deposits] table, whose [amount]
    column is a decimal string; [amount] is the value [parseFloat] gives
    it. *)
Definition depositConfirmed (userId : string) (amount : Qc) (s : State)
    : State :=
  let currentBalance := Storage.getBalance userId (storage s) in
  let newAmount := Storage.amountOrZero currentBalance + amount in
  let st1 := Storage.updateBalance userId newAmount (storage s) in
  withStorage (Storage.createTransaction userId TxDeposit amount st1) s.

(** ** Single-shot games: coin flip and roulette *)

Definition simulateCoinFlip (u : Qc) : string :=
  if bool_decide (u < dec 5 10) then "heads" else "tails".

Definition RED_NUMBERS : list Z :=
  [1; 3; 5; 7; 9; 12; 14; 16; 18; 19; 21; 23; 25; 27; 30; 32; 34; 36]%Z.

Definition BLACK_NUMBERS : list Z :=
  [2; 4; 6; 8; 10; 11; 13; 15; 17; 20; 22; 24; 26; 28; 29; 31; 33; 35]%Z.

Definition spinRouletteWheel (u : Qc) : Z := Qfloor (u * Qc_of_Z 37).

Definition isRedNumber (n : Z) : bool := bool_decide (n ∈ RED_NUMBERS).

Definition isBlackNumber (n : Z) : bool := bool_decide (n ∈ BLACK_NUMBERS).

Definition isSpace (c : ascii) : bool :=
  let n := nat_of_ascii c in
  bool_decide (9 ≤ n ≤ 13)%nat || bool_decide (n = 32)%nat.

Fixpoint skipSpaces (l : list ascii) : list ascii :=
  match l with
  | c :: l' => if isSpace c then skipSpaces l' else l
  | [] => []
  end.

Definition hexDigitOf (c : ascii) : option Z :=
  let n := Z.of_nat (nat_of_ascii c) in
  if bool_decide (48 ≤ n ≤ 57)%Z then Some (n - 48)%Z
  else if bool_decide (65 ≤ n ≤ 70)%Z then Some (n - 55)%Z
  else if bool_decide (97 ≤ n ≤ 102)%Z then Some (n - 87)%Z
  else None.

(** The longest prefix of digits, [None] when it is empty. *)
Fixpoint leadingDigits (digit : ascii → option Z) (radix : Z) (acc : Z)
    (seen : bool) (l : list ascii) : option Z :=
  match l with
  | [] => if seen then Some acc else None
  | c :: l' =>
      match digit c with
      | Some d => leadingDigits digit radix (radix * acc + d)%Z true l'
      | None => if seen then Some acc else None
      end
  end.

Definition parseUnsigned (l : list ascii) : option Z :=
  match l with
  | "0"%char :: x :: l' =>
      if bool_decide (x = "x"%char) || bool_decide (x = "X"%char)
      then leadingDigits hexDigitOf 16 0 false l'
      else leadingDigits digitOf 10 0 false l
  | _ => leadingDigits digitOf 10 0 false l
  end.

(** [parseInt(s)]: white space, a sign, an optional [0x], then digits;
    [None] is [NaN]. *)
Definition parseInt (s : string) : option Z :=
  match skipSpaces (list_ascii_of_string s) with
  | "-"%char :: l => Z.opp <$> parseUnsigned l
  | "+"%char :: l => parseUnsigned l
  | l => parseUnsigned l
  end.

Definition checkRouletteWin (betChoice : string) (result : Z) : bool :=
  let num := result in
  if bool_decide (betChoice = "red") then isRedNumber num
  else if bool_decide (betChoice = "black") then isBlackNumber num
  else if bool_decide (betChoice = "even") then
    bool_decide (num ≠ 0%Z) && bool_decide (num `mod` 2 = 0)%Z
  else if bool_decide (betChoice = "odd") then
    bool_decide (num ≠ 0%Z) && bool_decide (num `mod` 2 = 1)%Z
  else bool_decide (parseInt betChoice = Some num).

Definition calculateRoulettePayout (betChoice : string) (betAmount : Qc) : Qc :=
  match parseInt betChoice with
  | Some _ => betAmount * Qc_of_Z 36
  | None => betAmount * Qc_of_Z 2
  end.

(** [POST /api/bet].  [betSchema] is derived from the [bets] table and
    leaves [gameType], [betAmount] and [betChoice] as strings without a
    further check; [betAmount] is the value [parseFloat] gives the
    submitted decimal string. *)
Definition placeBet (userId gameType : string) (betAmount : Qc)
    (betChoice : string) (u : Qc) (s : State) : Result Reply * State :=
  match Storage.getBalance userId (storage s) with
  | None => (Err InsufficientFunds, s)
  | Some balance =>
      if bool_decide (bal_amount balance < betAmount)
      then (Err InsufficientFunds, s)
      else
        let '(result, outcome, payout) :=
          if bool_decide (gameType = "roulette") then
            let wheelResult := spinRouletteWheel u in
            let isWin := checkRouletteWin betChoice wheelResult in
            (Wheel wheelResult,
             if isWin then win else loss,
             if isWin then calculateRoulettePayout betChoice betAmount else 0)
          else
            let flipResult := simulateCoinFlip u in
            let outcome :=
              if bool_decide (flipResult = betChoice) then win else loss in
            (Coin flipResult, outcome,
             match outcome with win => betAmount * Qc_of_Z 2 | loss => 0 end) in
        let st1 :=
          Storage.createBet userId gameType betAmount outcome payout (storage s) in
        let currentBalance := bal_amount balance in
        let newBalance :=
          match outcome with
          | win => currentBalance - betAmount + payout
          | loss => currentBalance - betAmount
          end in
        let st2 := Storage.updateBalance userId newBalance st1 in
        let st3 := Storage.createTransaction userId TxBet betAmount st2 in
        let st4 :=
          match outcome with
          | win => Storage.createTransaction userId TxWin payout st3
          | loss => st3
          end in
        (Ok (BetReply result outcome payout), withStorage st4 s)
  end.

(** ** Tower *)

Module Tower.

Definition winChance (d : Difficulty) : Qc :=
  match d with
  | easy => dec 66 100
  | medium => dec 50 100
  | hard => dec 33 100
  end.

(** [TOWER_DIFFICULTIES[d].multiplier] *)
Definition multiplier (d : Difficulty) : Qc :=
  match d with
  | easy => dec 15 10
  | medium => dec 20 10
  | hard => dec 30 10
  end.

Definition MAX_TOWER_LEVEL : nat := 8.

(** [towerPlaySchema] *)
Definition playSchema (v : JsonValue) : option Difficulty :=
  match v with
  | JString s =>
      if bool_decide (s = "easy") then Some easy
      else if bool_decide (s = "medium") then Some medium
      else if bool_decide (s = "hard") then Some hard
      else None
  | _ => None
  end.

(** [POST /api/tower/start] *)
Definition start (userId : string) (body : JsonValue) (s : State)
    : Result Reply * State :=
  match betAmountSchema body with
  | None => (Err ValidationError, s)
  | Some betAmount =>
      match Storage.getBalance userId (storage s) with
      | None => (Err InsufficientFunds, s)
      | Some balance =>
          if bool_decide (bal_amount balance < betAmount)
          then (Err InsufficientFunds, s)
          else
            (* End any existing game *)
            let games :=
              match towerGames s !! userId with
              | Some _ => delete userId (towerGames s)
              | None => towerGames s
              end in
            let newBalance := bal_amount balance - betAmount in
            let st1 := Storage.updateBalance userId newBalance (storage s) in
            let st2 := Storage.createTransaction userId TxBet betAmount st1 in
            let game := mkTowerGame userId betAmount 0 1 true in
            (Ok (TowerStarted (tg_currentLevel game) (tg_currentMultiplier game)
                   (tg_betAmount game * tg_currentMultiplier game)),
             mkState st2 (<[userId := game]> games) (crashGames s) (minesGames s))
      end
  end.

(** [POST /api/tower/play]; [u] is the value of [Math.random()].  The
    handler updates the game object that the map holds. *)
Definition play (userId : string) (body : JsonValue) (u : Qc) (s : State)
    : Result Reply * State :=
  match playSchema body with
  | None => (Err ValidationError, s)
  | Some difficulty =>
      match towerGames s !! userId with
      | None => (Err NoActiveSession, s)
      | Some game =>
          if negb (tg_isActive game) then (Err NoActiveSession, s)
          else if bool_decide (MAX_TOWER_LEVEL ≤ tg_currentLevel game)%nat
          then (Err InvalidMove, s)
          else
            let won := bool_decide (u < winChance difficulty) in
            if won then
              let game' :=
                mkTowerGame (tg_userId game) (tg_betAmount game)
                  (tg_currentLevel game + 1)
                  (tg_currentMultiplier game * multiplier difficulty)
                  (tg_isActive game) in
              let potentialPayout :=
                tg_betAmount game' * tg_currentMultiplier game' in
              (Ok (TowerWon (tg_currentLevel game') (tg_currentMultiplier game')
                     potentialPayout
                     (bool_decide (MAX_TOWER_LEVEL ≤ tg_currentLevel game')%nat)),
               withTower (<[userId := game']> (towerGames s)) s)
            else
              let st1 :=
                Storage.createBet userId "tower" (tg_betAmount game) loss 0
                  (storage s) in
              (Ok (TowerLost (tg_currentLevel game) (tg_betAmount game)),
               mkState st1 (delete userId (towerGames s)) (crashGames s)
                 (minesGames s))
      end
  end.

(** [POST /api/tower/cashout] *)
Definition cashout (userId : string) (s : State) : Result Reply * State :=
  match towerGames s !! userId with
  | None => (Err NoActiveSession, s)
  | Some game =>
      if negb (tg_isActive game) then (Err NoActiveSession, s)
      else
        let games := delete userId (towerGames s) in
        let payout := tg_betAmount game * tg_currentMultiplier game in
        let balance := Storage.getBalance userId (storage s) in
        let newBalance := Storage.amountOrZero balance + payout in
        let st1 := Storage.updateBalance userId newBalance (storage s) in
        let st2 :=
          Storage.createBet userId "tower" (tg_betAmount game) win payout st1 in
        let st3 := Storage.createTransaction userId TxWin payout st2 in
        (Ok (TowerCashedOut payout (tg_currentLevel game)
               (tg_currentMultiplier game)),
         mkState st3 games (crashGames s) (minesGames s))
  end.

(** [GET /api/tower/status] *)
Definition status (userId : string) (s : State) : Result Reply * State :=
  match towerGames s !! userId with
  | None => (Ok NoActiveGame, s)
  | Some game =>
      if negb (tg_isActive game) then (Ok NoActiveGame, s)
      else
        (Ok (TowerStatusReply (tg_currentLevel game) (tg_currentMultiplier game)
               (tg_betAmount game * tg_currentMultiplier game)
               (tg_betAmount game)), s)
  end.

End Tower.

(** ** Crash *)

Module Crash.

(** [(Date.now() - startTime) / 1000] *)
Definition elapsed (now startTime : Z) : Qc :=
  Qc_of_Z (now - startTime) / Qc_of_Z 1000.

(** [1 + elapsed * 0.1] *)
Definition clockMultiplier (now startTime : Z) : Qc :=
  1 + elapsed now startTime * dec 1 10.

(** [POST /api/crash/start]; [pw] is the value of
    [Math.pow(Math.random(), -0.04)], [now] the value of [Date.now()]. *)
Definition start (userId : string) (body : JsonValue) (pw : Qc) (now : Z)
    (s : State) : Result Reply * State :=
  let refused :=
    match crashGames s !! userId with
    | Some existingGame => cg_isActive existingGame
    | None => false
    end in
  if refused then (Err SessionAlreadyActive, s)
  else
    match betAmountSchema body with
    | None => (Err ValidationError, s)
    | Some betAmount =>
        let balance := Storage.getBalance userId (storage s) in
        let currentBalance := Storage.amountOrZero balance in
        if bool_decide (currentBalance < betAmount)
        then (Err InsufficientFunds, s)
        else
          let newBalance := currentBalance - betAmount in
          let st1 := Storage.updateBalance userId newBalance (storage s) in
          let st2 := Storage.createTransaction userId TxBet betAmount st1 in
          let crashPoint := Math_max (dec 101 100) pw in
          let game :=
            mkCrashGame betAmount now (Math_min crashPoint (Qc_of_Z 1000))
              true false None in
          (Ok (CrashStarted (cg_startTime game) (cg_betAmount game)),
           mkState st2 (towerGames s) (<[userId := game]> (crashGames s))
             (minesGames s))
    end.

(** [POST /api/crash/cashout] *)
Definition cashout (userId : string) (now : Z) (s : State)
    : Result Reply * State :=
  match crashGames s !! userId with
  | None => (Err NoActiveSession, s)
  | Some game =>
      if negb (cg_isActive game) then (Err NoActiveSession, s)
      else if cg_cashedOut game then (Err AlreadyCashedOut, s)
      else
        let games := delete userId (crashGames s) in
        let currentMultiplier :=
          Math_min (clockMultiplier now (cg_startTime game)) (cg_crashPoint game) in
        if bool_decide (cg_crashPoint game ≤ currentMultiplier) then
          let st1 :=
            Storage.createBet userId "crash" (cg_betAmount game) loss 0
              (storage s) in
          (Ok (CrashCrashed (cg_crashPoint game) 0),
           mkState st1 (towerGames s) games (minesGames s))
        else
          let payout := cg_betAmount game * currentMultiplier in
          let balance := Storage.getBalance userId (storage s) in
          let newBalance := Storage.amountOrZero balance + payout in
          let st1 := Storage.updateBalance userId newBalance (storage s) in
          let st2 :=
            Storage.createBet userId "crash" (cg_betAmount game) win payout st1 in
          let st3 := Storage.createTransaction userId TxWin payout st2 in
          (Ok (CrashCashedOut currentMultiplier payout (cg_crashPoint game)),
           mkState st3 (towerGames s) games (minesGames s))
  end.

(** [GET /api/crash/status] *)
Definition status (userId : string) (now : Z) (s : State)
    : Result Reply * State :=
  match crashGames s !! userId with
  | None => (Ok NoActiveGame, s)
  | Some game =>
      if negb (cg_isActive game) then (Ok NoActiveGame, s)
      else
        let currentMultiplier := clockMultiplier now (cg_startTime game) in
        if bool_decide (cg_crashPoint game ≤ currentMultiplier) then
          let st1 :=
            Storage.createBet userId "crash" (cg_betAmount game) loss 0
              (storage s) in
          (Ok (CrashAutoCrashed (cg_crashPoint game)),
           mkState st1 (towerGames s) (delete userId (crashGames s))
             (minesGames s))
        else
          (Ok (CrashStatusReply currentMultiplier (cg_betAmount game)
                 (cg_betAmount game * currentMultiplier) (cg_startTime game)), s)
  end.

End Crash.

(** ** Dice *)

Module Dice.

(** [z.enum(['over', 'under'])] *)
Definition directionSchema (v : JsonValue) : option Direction :=
  match v with
  | JString s =>
      if bool_decide (s = "over") then Some over
      else if bool_decide (s = "under") then Some under
      else None
  | _ => None
  end.

(** The [refine] step of [dicePlaySchema]. *)
Definition combinationOk (direction : Direction) (target : Qc) : bool :=
  match direction with
  | over => negb (bool_decide (Qc_of_Z 99 ≤ target))
  | under => negb (bool_decide (target ≤ 1))
  end.

(** [dicePlaySchema.parse] *)
Definition playSchema (betAmount target direction : JsonValue)
    : option (Qc * Qc * Direction) :=
  match betAmountSchema betAmount,
        numberSchema 1 (Qc_of_Z 99) target,
        directionSchema direction with
  | Some b, Some t, Some d =>
      if combinationOk d t then Some (b, t, d) else None
  | _, _, _ => None
  end.

(** [Math.floor(Math.random() * 100)] *)
Definition rollOf (u : Qc) : Qc := Math_floor (u * Qc_of_Z 100).

Definition wins (direction : Direction) (roll target : Qc) : bool :=
  match direction with
  | over => bool_decide (target < roll)
  | under => bool_decide (roll < target)
  end.

Definition winChance (direction : Direction) (target : Qc) : Qc :=
  match direction with
  | over => (Qc_of_Z 99 - target) / Qc_of_Z 100
  | under => target / Qc_of_Z 100
  end.

(** [0.98 / winChance] *)
Definition multiplier (direction : Direction) (target : Qc) : Qc :=
  dec 98 100 / winChance direction target.

(** [POST /api/dice/play]; [u] is the value of [Math.random()]. *)
Definition play (userId : string) (betAmount target direction : JsonValue)
    (u : Qc) (s : State) : Result Reply * State :=
  match playSchema betAmount target direction with
  | None => (Err ValidationError, s)
  | Some (betAmount, target, direction) =>
      let balance := Storage.getBalance userId (storage s) in
      let currentBalance := Storage.amountOrZero balance in
      if bool_decide (currentBalance < betAmount)
      then (Err InsufficientFunds, s)
      else
        let newBalance := currentBalance - betAmount in
        let st1 := Storage.updateBalance userId newBalance (storage s) in
        let st2 := Storage.createTransaction userId TxBet betAmount st1 in
        let roll := rollOf u in
        let won := wins direction roll target in
        let payout := if won then betAmount * multiplier direction target else 0 in
        let st3 :=
          if won then
            let balanceAfterWin := newBalance + payout in
            Storage.createTransaction userId TxWin payout
              (Storage.updateBalance userId balanceAfterWin st2)
          else st2 in
        let st4 :=
          Storage.createBet userId "dice" betAmount (if won then win else loss)
            payout st3 in
        (Ok (DiceReply roll won payout target direction), withStorage st4 s)
  end.

End Dice.

(** ** Mines *)

Module Mines.

Definition gridSize : Qc := Qc_of_Z 25.

(** [minesStartSchema.parse] *)
Definition startSchema (betAmount mineCount : JsonValue) : option (Qc * Qc) :=
  match betAmountSchema betAmount, numberSchema 1 (Qc_of_Z 24) mineCount with
  | Some b, Some m => Some (b, m)
  | _, _ => None
  end.

(** [minesRevealSchema.parse] *)
Definition revealSchema (tileIndex : JsonValue) : option Qc :=
  numberSchema 0 (Qc_of_Z 24) tileIndex.

(** The loop [while (minePositions.length < mineCount)], run on the
    successive values [draws] of [Math.random()].  [None]: the draws are
    used up and the loop still runs. *)
Fixpoint placeMines (mineCount : Qc) (draws : list Qc) (minePositions : list Qc)
    : option (list Qc) :=
  if bool_decide (Qc_of_Z (Z.of_nat (length minePositions)) < mineCount) then
    match draws with
    | [] => None
    | u :: draws' =>
        let pos := Math_floor (u * gridSize) in
        placeMines mineCount draws'
          (if includes minePositions pos then minePositions
           else minePositions ++ [pos])
    end
  else Some minePositions.

(** [POST /api/mines/start].  The balance is written before the mines are
    placed; the handler answers once the loop has ended. *)
Definition start (userId : string) (betAmount mineCount : JsonValue)
    (draws : list Qc) (s : State) : option (Result Reply * State) :=
  let refused :=
    match minesGames s !! userId with
    | Some existingGame => mg_isActive existingGame
    | None => false
    end in
  if refused then Some (Err SessionAlreadyActive, s)
  else
    match startSchema betAmount mineCount with
    | None => Some (Err ValidationError, s)
    | Some (betAmount, mineCount) =>
        let balance := Storage.getBalance userId (storage s) in
        let currentBalance := Storage.amountOrZero balance in
        if bool_decide (currentBalance < betAmount)
        then Some (Err InsufficientFunds, s)
        else
          let newBalance := currentBalance - betAmount in
          let st1 := Storage.updateBalance userId newBalance (storage s) in
          let st2 := Storage.createTransaction userId TxBet betAmount st1 in
          match placeMines mineCount draws [] with
          | None => None
          | Some minePositions =>
              let game :=
                mkMinesGame betAmount mineCount gridSize minePositions [] true 1 in
              Some (Ok (MinesStarted gridSize mineCount betAmount),
                    mkState st2 (towerGames s) (crashGames s)
                      (<[userId := game]> (minesGames s)))
          end
    end.

(** [POST /api/mines/reveal].  A safe reveal pushes the tile on the
    [revealedTiles] array of the game object that the map holds and
    recomputes its multiplier. *)
Definition reveal (userId : string) (tileIndex : JsonValue) (s : State)
    : Result Reply * State :=
  match minesGames s !! userId with
  | None => (Err NoActiveSession, s)
  | Some game =>
      if negb (mg_isActive game) then (Err NoActiveSession, s)
      else
        match revealSchema tileIndex with
        | None => (Err ValidationError, s)
        | Some tileIndex =>
            if includes (mg_revealedTiles game) tileIndex
            then (Err InvalidMove, s)
            else
              let hitMine := includes (mg_minePositions game) tileIndex in
              if hitMine then
                let st1 :=
                  Storage.createBet userId "mines" (mg_betAmount game) loss 0
                    (storage s) in
                (Ok (MinesHit tileIndex (mg_minePositions game) 0),
                 mkState st1 (towerGames s) (crashGames s)
                   (delete userId (minesGames s)))
              else
                let revealedTiles := mg_revealedTiles game ++ [tileIndex] in
                let revealedCount := length revealedTiles in
                let currentMultiplier :=
                  Math_pow
                    (mg_gridSize game / (mg_gridSize game - mg_mineCount game))
                    revealedCount in
                let game' :=
                  mkMinesGame (mg_betAmount game) (mg_mineCount game)
                    (mg_gridSize game) (mg_minePositions game) revealedTiles
                    (mg_isActive game) currentMultiplier in
                (Ok (MinesSafe tileIndex revealedTiles currentMultiplier
                       (mg_betAmount game * currentMultiplier)),
                 withMines (<[userId := game']> (minesGames s)) s)
        end
  end.

(** [POST /api/mines/cashout] *)
Definition cashout (userId : string) (s : State) : Result Reply * State :=
  match minesGames s !! userId with
  | None => (Err NoActiveSession, s)
  | Some game =>
      if negb (mg_isActive game) then (Err NoActiveSession, s)
      else if bool_decide (length (mg_revealedTiles game) = 0%nat)
      then (Err NothingToCashOut, s)
      else
        let games := delete userId (minesGames s) in
        let payout := mg_betAmount game * mg_currentMultiplier game in
        let balance := Storage.getBalance userId (storage s) in
        let newBalance := Storage.amountOrZero balance + payout in
        let st1 := Storage.updateBalance userId newBalance (storage s) in
        let st2 :=
          Storage.createBet userId "mines" (mg_betAmount game) win payout st1 in
        let st3 := Storage.createTransaction userId TxWin payout st2 in
        (Ok (MinesCashedOut payout (mg_currentMultiplier game)),
         mkState st3 (towerGames s) (crashGames s) games)
  end.

(** [GET /api/mines/status] *)
Definition status (userId : string) (s : State) : Result Reply * State :=
  match minesGames s !! userId with
  | None => (Ok NoActiveGame, s)
  | Some game =>
      if negb (mg_isActive game) then (Ok NoActiveGame, s)
      else
        (Ok (MinesStatusReply (mg_revealedTiles game) (mg_currentMultiplier game)
               (mg_betAmount game * mg_currentMultiplier game)
               (mg_betAmount game) (mg_mineCount game) (mg_gridSize game)), s)
  end.

End Mines.

(** ** The engine: requests, sessions, reachable states *)

(** The requests of an authenticated user that touch the ledger or a
    session store, each with the values of [Math.random()] and [Date.now()]
    its handler reads. *)
Inductive Request :=
| GetBalance
| DepositConfirmed (amount : Qc)
| PlaceBet (gameType : string) (betAmount : Qc) (betChoice : string) (u : Qc)
| DicePlay (betAmount target direction : JsonValue) (u : Qc)
| TowerStart (betAmount : JsonValue)
| TowerPlay (difficulty : JsonValue) (u : Qc)
| TowerCashout
| TowerStatus
| CrashStart (betAmount : JsonValue) (pw : Qc) (now : Z)
| CrashCashout (now : Z)
| CrashStatus (now : Z)
| MinesStart (betAmount mineCount : JsonValue) (draws : list Qc)
| MinesReveal (tileIndex : JsonValue)
| MinesCashout
| MinesStatus.

(** One request served: the answer and the next state.  [None] only for a
    [MinesStart] whose placement loop outlasts its draws. *)
Definition handle (userId : string) (r : Request) (s : State)
    : option (Result Reply * State) :=
  match r with
  | GetBalance => Some (getBalanceRoute userId s)
  | DepositConfirmed amount =>
      Some (Ok CallbackDone, depositConfirmed userId amount s)
  | PlaceBet gameType betAmount betChoice u =>
      Some (placeBet userId gameType betAmount betChoice u s)
  | DicePlay betAmount target direction u =>
      Some (Dice.play userId betAmount target direction u s)
  | TowerStart betAmount => Some (Tower.start userId betAmount s)
  | TowerPlay difficulty u => Some (Tower.play userId difficulty u s)
  | TowerCashout => Some (Tower.cashout userId s)
  | TowerStatus => Some (Tower.status userId s)
  | CrashStart betAmount pw now => Some (Crash.start userId betAmount pw now s)
  | CrashCashout now => Some (Crash.cashout userId now s)
  | CrashStatus now => Some (Crash.status userId now s)
  | MinesStart betAmount mineCount draws =>
      Mines.start userId betAmount mineCount draws s
  | MinesReveal tileIndex => Some (Mines.reveal userId tileIndex s)
  | MinesCashout => Some (Mines.cashout userId s)
  | MinesStatus => Some (Mines.status userId s)
  end.

Inductive reachable : State → Prop :=
| reachable_initial : reachable initialState
| reachable_handle userId r s reply s' :
    reachable s → handle userId r s = Some (reply, s') → reachable s'.

(** The state after a list of requests, each with its user. *)
Fixpoint run (rs : list (string * Request)) (s : State) : option State :=
  match rs with
  | [] => Some s
  | (userId, r) :: rs' =>
      match handle userId r s with
      | Some (_, s') => run rs' s'
      | None => None
      end
  end.

Inductive SessionGame := TowerG | CrashG | MinesG.


(** [startSession] *)
Definition isStart (g : SessionGame) (r : Request) : bool :=
  match g, r with
  | TowerG, TowerStart _ => true
  | CrashG, CrashStart _ _ _ => true
  | MinesG, MinesStart _ _ _ => true
  | _, _ => false
  end.


(** [cashoutSession] *)
Definition cashoutRequest (g : SessionGame) (now : Z) : Request :=
  match g with
  | TowerG => TowerCashout
  | CrashG => CrashCashout now
  | MinesG => MinesCashout
  end.

(** [parseFloat(balance?.amount || '0')] for the user. *)
Definition amountOf (userId : string) (s : State) : Qc :=
  Storage.amountOrZero (Storage.getBalance userId (storage s)).






(** Reveals that are all safe; [None] as soon as one is answered
    otherwise. *)
Fixpoint safeReveals (userId : string) (tiles : list JsonValue) (s : State)
    : option State :=
  match tiles with
  | [] => Some s
  | t :: tiles' =>
      match Mines.reveal userId t s with
      | (Ok (MinesSafe _ _ _ _), s') => safeReveals userId tiles' s'
      | _ => None
      end
  end.




(** What [POST /api/mines/start] builds and the reveals keep: the mines sit
    on integers, the grid has 25 tiles, the mine count is within [1, 24],
    the session is active, and the multiplier is the power that belongs to
    the number of revealed tiles. *)
Definition minesWellFormed (game : MinesGame) : Prop :=
  Forall (λ p, isInteger p = true) (mg_minePositions game) ∧
  mg_gridSize game = Qc_of_Z 25 ∧
  1 ≤ mg_mineCount game ≤ Qc_of_Z 24 ∧
  mg_isActive game = true ∧
  mg_currentMultiplier game
  = (Qc_of_Z 25 / (Qc_of_Z 25 - mg_mineCount game))
    ^ length (mg_revealedTiles game).

(** The mines of a session are distinct tiles, as many as the mine count
    rounded up: [mineCount] of them when it is a whole number. *)
Definition minesPlaced (game : MinesGame) : Prop :=
  NoDup (mg_minePositions game) ∧
  mg_mineCount game
  ≤ Qc_of_Z (Z.of_nat (length (mg_minePositions game)))
  < mg_mineCount game + 1.

(** The store of the game holds no session of the user. *)
Definition noSession (g : SessionGame) (userId : string) (s : State) : Prop :=
  match g with
  | TowerG => towerGames s !! userId = None
  | CrashG => crashGames s !! userId = None
  | MinesG => minesGames s !! userId = None
  end.

(** None of the requests is a start of the game by the user. *)
Definition noRestart (g : SessionGame) (userId : string)
    (rs : list (string * Request)) : Prop :=
  Forall (λ ur, ¬ (ur.1 = userId ∧ isStart g ur.2 = true)) rs.

(** No balance record is below zero. *)
Definition ledgerOk (st : MemStorage) : Prop :=
  Forall (λ b, 0 ≤ bal_amount b) (balances st).

Definition towerOk (game : TowerGame) : Prop :=
  0 ≤ tg_betAmount game ∧ 0 ≤ tg_currentMultiplier game.

Definition crashOk (game : CrashGame) : Prop :=
  0 ≤ cg_betAmount game ∧ 0 ≤ cg_crashPoint game.

Definition minesOk (game : MinesGame) : Prop :=
  0 ≤ mg_betAmount game ∧ minesWellFormed game.

(** No balance is below zero and no stored session can pay out a
    negative amount. *)
Definition solvent (s : State) : Prop :=
  ledgerOk (storage s) ∧
  map_Forall (λ _, towerOk) (towerGames s) ∧
  map_Forall (λ _, crashOk) (crashGames s) ∧
  map_Forall (λ _, minesOk) (minesGames s).

(** What the handlers take for granted and no schema enforces: the amount
    of a single-shot bet and of a deposit is not negative, and the clock
    read by a crash cash-out is not behind the start of the session. *)
Definition amountsChecked (userId : string) (r : Request) (s : State) : Prop :=
  match r with
  | PlaceBet _ betAmount _ _ => 0 ≤ betAmount
  | DepositConfirmed amount => 0 ≤ amount
  | CrashCashout now =>
      ∀ game, crashGames s !! userId = Some game → (cg_startTime game ≤ now)%Z
  | _ => True
  end.

(** The states reached from the initial one by requests with checked
    amounts. *)
Inductive reachableChecked : State → Prop :=
| reachableChecked_initial : reachableChecked initialState
| reachableChecked_handle userId r s reply s' :
    reachableChecked s →
    amountsChecked userId r s →
    handle userId r s = Some (reply, s') →
    reachableChecked s'.

(** ** Scenarios *)

(** The state after a list of requests served from the initial state. *)
Definition after (rs : list (string * Request)) : State :=
  default initialState (run rs initialState).

(** The balance of alice is created by [GET /api/balance]. *)
Definition aliceJoins : list (string * Request) := [("alice", GetBalance)].

(** alice then has a deposit of 100 confirmed. *)
Definition aliceFunded : list (string * Request) :=
  aliceJoins ++ [("alice", DepositConfirmed (Qc_of_Z 100))].

Definition ten : JsonValue := JNumber (Qc_of_Z 10).


(** She then won three levels at [easy]. *)
Definition towerThreeUp : State :=
  after (aliceFunded
         ++ [("alice", TowerStart ten);
             ("alice", TowerPlay (JString "easy") (dec 1 10));
             ("alice", TowerPlay (JString "easy") (dec 2 10));
             ("alice", TowerPlay (JString "easy") (dec 3 10))]).

(** alice, with a balance of 100, has started a crash with a bet of 10 at
    time 0; the crash point is 1.01. *)
Definition crashActive : State :=
  after (aliceFunded ++ [("alice", CrashStart ten (dec 101 100) 0)]).

(** The draws that put the five mines of alice on the tiles 0 to 4. *)
Definition fiveDraws : list Qc :=
  [dec 0 25; dec 1 25; dec 1 25; dec 2 25; dec 3 25; dec 4 25].

(** alice, with a balance of 100, has started a mines session with a bet
    of 10 and five mines. *)
Definition minesActive : State :=
  after (aliceFunded
         ++ [("alice", MinesStart ten (JNumber (Qc_of_Z 5)) fiveDraws)]).

(** She then revealed tile 7. *)
Definition minesOneSafe : State :=
  after (aliceFunded
         ++ [("alice", MinesStart ten (JNumber (Qc_of_Z 5)) fiveDraws);
             ("alice", MinesReveal (JNumber (Qc_of_Z 7)))]).

(** And cashed out. *)
Definition minesCashedOut : State :=
  after (aliceFunded
         ++ [("alice", MinesStart ten (JNumber (Qc_of_Z 5)) fiveDraws);
             ("alice", MinesReveal (JNumber (Qc_of_Z 7)));
             ("alice", MinesCashout)]).

(** The crash session of alice in [crashActive]. *)
Definition crashOfAlice : CrashGame :=
  mkCrashGame (Qc_of_Z 10) 0
    (Math_min (Math_max (dec 101 100) (dec 101 100)) (Qc_of_Z 1000))
    true false None.

(** The mines session of alice in [minesActive]. *)
Definition minesOfAlice : MinesGame :=
  mkMinesGame (Qc_of_Z 10) (Qc_of_Z 5) Mines.gridSize
    (Qc_of_Z <$> [0; 1; 2; 3; 4]%Z) [] true 1.

(** The multiplier after one safe reveal with five mines. *)
Definition oneOfFive : Qc :=
  Math_pow (Mines.gridSize / (Mines.gridSize - Qc_of_Z 5)) 1.

(** alice, with a balance of 100, starts a mines session with a bet of 10
    and the mine count 1.5, and reveals tile 7. *)
Definition minesFractional : list (string * Request) :=
  aliceFunded
  ++ [("alice", MinesStart ten (JNumber (dec 15 10)) [dec 0 25; dec 1 25]);
      ("alice", MinesReveal (JNumber (Qc_of_Z 7)))].

(** The multiplier that belongs to [k] safe reveals on a grid of 25 tiles
    of which [mines] hold a mine. *)
Definition multiplierOfGrid (mines : list Qc) (k : nat) : Qc :=
  (Qc_of_Z 25 / (Qc_of_Z 25 - Qc_of_Z (Z.of_nat (length mines)))) ^ k.

(** * Properties *)

(** ** The ledger store *)


Lemma find_app_none {A} (f : A → bool) l x :
  List.find f l = None → List.find f (l ++ [x]) = (if f x then Some x else None).
Proof.
  induction l as [|a l IH]; simpl; [done|].
  destruct (f a); [done|]. apply IH.
Qed.






(** ** Numbers *)

Lemma isInteger_Qc_of_Z z : isInteger (Qc_of_Z z) = true.
Proof.
  unfold isInteger. apply bool_decide_eq_true_2.
  f_equal. simpl. apply Qfloor_Z.
Qed.

Lemma isInteger_Math_floor x : isInteger (Math_floor x) = true.
Proof. apply isInteger_Qc_of_Z. Qed.

(** ** The handlers, case by case *)

(** Splits a hypothesis on an answer of [handle] into the branches of the
    handler. *)
Ltac handler_cases H :=
  simpl in H;
  unfold getBalanceRoute, depositConfirmed, placeBet, Dice.play, Tower.start,
    Tower.play, Tower.cashout, Tower.status, Crash.start, Crash.cashout,
    Crash.status, Mines.start, Mines.reveal, Mines.cashout, Mines.status in H;
  repeat case_match; simplify_eq.

(** A refusal changes nothing. *)
Lemma refusal_changes_nothing userId r s e s' :
  handle userId r s = Some (Err e, s') → s' = s.
Proof. intros H. destruct r; handler_cases H; done. Qed.

(** ** Reading the balance *)

(** C9, as stated, at the empty store: [getBalance] of the ledger store has
    no record to return and no default either; its answer is [undefined]. *)
Lemma getBalance_absent_counterexample :
  ¬ (∃ b, Storage.getBalance "alice" emptyStorage = Some b ∧ bal_amount b = 0).
Proof. intros (b & H & _). discriminate H. Qed.

(** C9, amended: [GET /api/balance] always answers 200.  With a record for
    the user it answers the stored amount and currency and changes nothing;
    without one it creates the record with amount 0 in USDT and answers it.
    The [getBalance] of the store it calls answers [undefined] exactly when
    the store has no record of the user. *)
Theorem getBalanceRoute_total userId s :
  ∃ amount currency s',
    getBalanceRoute userId s = (Ok (BalanceReply amount currency), s') ∧
    match Storage.getBalance userId (storage s) with
    | Some b =>
        b ∈ balances (storage s) ∧ bal_userId b = userId ∧
        amount = bal_amount b ∧ currency = bal_currency b ∧ s' = s
    | None =>
        (∀ b, b ∈ balances (storage s) → bal_userId b ≠ userId) ∧
        amount = 0 ∧ currency = "USDT" ∧
        Storage.getBalance userId (storage s')
        = Some (mkBalance (uuid (storage s)) userId 0 "USDT")
    end.
Proof.
  unfold getBalanceRoute.
  destruct (Storage.getBalance userId (storage s)) as [b|] eqn:E.
  - exists (bal_amount b), (bal_currency b), s. split; [done|].
    unfold Storage.getBalance in E. apply find_some in E as [Hin Hu].
    apply bool_decide_eq_true in Hu. by apply list_elem_of_In in Hin.
  - eexists _, _, _. split; [reflexivity|]. simpl. repeat split.
    + intros b Hb Hu. unfold Storage.getBalance in E.
      assert (Hf := find_none _ _ E b (proj1 (list_elem_of_In _ _) Hb)).
      simpl in Hf. by rewrite bool_decide_eq_true_2 in Hf.
    + unfold Storage.getBalance in *. simpl.
      rewrite (find_app_none _ _ _ E). simpl. by rewrite bool_decide_eq_true_2.
Qed.

(** ** Cashing out twice *)

Lemma cashout_ends_session g userId now s reply s' :
  handle userId (cashoutRequest g now) s = Some (Ok reply, s') →
  noSession g userId s'.
Proof.
  destruct g; simpl; intros [= H].
  - unfold Tower.cashout in H.
    destruct (towerGames s !! userId) as [game|]; [|done].
    destruct (tg_isActive game); simpl in H; [|done].
    injection H as _ <-. simpl. by rewrite lookup_delete_eq.
  - unfold Crash.cashout in H.
    destruct (crashGames s !! userId) as [game|]; [|done].
    destruct (cg_isActive game); simpl in H; [|done].
    destruct (cg_cashedOut game); [done|].
    case_bool_decide; injection H as _ <-; simpl; by rewrite lookup_delete_eq.
  - unfold Mines.cashout in H.
    destruct (minesGames s !! userId) as [game|]; [|done].
    destruct (mg_isActive game); simpl in H; [|done].
    case_bool_decide; [done|].
    injection H as _ <-. simpl. by rewrite lookup_delete_eq.
Qed.

(** Only a start of the game by the user puts a session of the user in
    the store of the game. *)
Lemma noSession_preserved g userId u r s reply s' :
  noSession g userId s →
  ¬ (u = userId ∧ isStart g r = true) →
  handle u r s = Some (reply, s') →
  noSession g userId s'.
Proof.
  intros Hno Hr H.
  destruct (decide (u = userId)) as [->|Hne].
  - destruct r; handler_cases H; try done; destruct g; simpl in *; try done;
      rewrite ?lookup_delete_eq; try done; try (exfalso; by apply Hr); congruence.
  - destruct r; handler_cases H; try done; destruct g; simpl in *; try done;
      rewrite ?lookup_insert_ne, ?lookup_delete_ne by done; done.
Qed.

Lemma noSession_run g userId rs :
  noRestart g userId rs →
  ∀ s s', noSession g userId s → run rs s = Some s' → noSession g userId s'.
Proof.
  induction 1 as [|[u r] rs Hr _ IH]; intros s s' Hno; simpl.
  - by intros [= <-].
  - destruct (handle u r s) as [[reply s1]|] eqn:E; [|done].
    apply IH. by eapply noSession_preserved.
Qed.

Lemma cashout_without_session g userId now s :
  noSession g userId s →
  handle userId (cashoutRequest g now) s = Some (Err NoActiveSession, s).
Proof.
  destruct g; simpl; intros Hno.
  - unfold Tower.cashout. by rewrite Hno.
  - unfold Crash.cashout. by rewrite Hno.
  - unfold Mines.cashout. by rewrite Hno.
Qed.

(** C2: once a cash-out of a session game has been answered with 200, the
    next cash-out of the same user on that game is refused with
    [NoActiveSession] and leaves the whole state as it was (no balance
    write, no second bet record), whether it comes at once or after other
    requests, as long as the user has not started the game anew. *)
Theorem cashout_twice_refused g userId now s reply s1 rs s2 now' :
  handle userId (cashoutRequest g now) s = Some (Ok reply, s1) →
  noRestart g userId rs →
  run rs s1 = Some s2 →
  handle userId (cashoutRequest g now') s2 = Some (Err NoActiveSession, s2).
Proof.
  intros H Hrs Hrun. apply cashout_without_session.
  eapply noSession_run; [done| |done]. by eapply cashout_ends_session.
Qed.

(** ** The status poll of Crash *)

(** C4: when the clock multiplier [1 + elapsed * 0.1] of an active Crash
    session has reached its crash point, [GET /api/crash/status] answers
    [crashed: true], removes the session from the store, and appends one
    losing bet with payout 0; balances and transactions stay as they are. *)
Theorem crash_status_settles_loss userId now s game :
  crashGames s !! userId = Some game →
  cg_isActive game = true →
  cg_crashPoint game ≤ Crash.clockMultiplier now (cg_startTime game) →
  ∃ s',
    handle userId (CrashStatus now) s
    = Some (Ok (CrashAutoCrashed (cg_crashPoint game)), s') ∧
    crashGames s' !! userId = None ∧
    bets (storage s')
    = bets (storage s)
        ++ [mkBet (uuid (storage s)) userId "crash" (cg_betAmount game) loss 0] ∧
    balances (storage s') = balances (storage s) ∧
    transactions (storage s') = transactions (storage s).
Proof.
  intros Hg Ha Hc. simpl. unfold Crash.status. rewrite Hg, Ha. simpl.
  rewrite bool_decide_eq_true_2 by done.
  eexists. split; [reflexivity|]. simpl. by rewrite lookup_delete_eq.
Qed.

(** ** Starting a session while one is active *)



(** ** Settlement *)










(** ** The multiplier of a tower *)




(** ** The multiplier of a mines session *)

Lemma numberSchema_Some lo hi v x :
  numberSchema lo hi v = Some x → v = JNumber x ∧ lo ≤ x ≤ hi.
Proof.
  destruct v as [y| |]; simpl; try done.
  destruct (bool_decide (lo ≤ y)) eqn:E1; simpl; [|done].
  destruct (bool_decide (y ≤ hi)) eqn:E2; simpl; [|done].
  intros [= ->]. by apply bool_decide_eq_true in E1, E2.
Qed.

Lemma placeMines_integers mineCount draws :
  ∀ acc mines,
    Forall (λ p, isInteger p = true) acc →
    Mines.placeMines mineCount draws acc = Some mines →
    Forall (λ p, isInteger p = true) mines.
Proof.
  induction draws as [|u draws IH]; intros acc mines Hacc; simpl.
  - case_bool_decide; [done|]. by intros [= <-].
  - case_bool_decide; [|by intros [= <-]].
    apply IH. destruct (includes acc _); [done|].
    apply Forall_app. split; [done|].
    apply Forall_singleton, isInteger_Math_floor.
Qed.

(** Once the placement loop has ended, further draws are not read. *)
Lemma placeMines_more_draws mineCount draws extra :
  ∀ acc mines,
    Mines.placeMines mineCount draws acc = Some mines →
    Mines.placeMines mineCount (draws ++ extra) acc = Some mines.
Proof.
  induction draws as [|u draws IH]; intros acc mines; simpl.
  - case_bool_decide; [done|]. intros [= <-].
    destruct extra; simpl; by rewrite bool_decide_eq_false_2.
  - case_bool_decide; [|done]. apply IH.
Qed.

(** The loop ends with at least [mineCount] mines. *)
Lemma placeMines_count mineCount draws :
  ∀ acc mines,
    Mines.placeMines mineCount draws acc = Some mines →
    ¬ Qc_of_Z (Z.of_nat (length mines)) < mineCount.
Proof.
  induction draws as [|u draws IH]; intros acc mines; simpl.
  - case_bool_decide; [done|]. by intros [= <-].
  - case_bool_decide; [|by intros [= <-]]. apply IH.
Qed.

Lemma placeMines_placed mineCount draws :
  ∀ acc mines,
    NoDup acc →
    Qc_of_Z (Z.of_nat (length acc)) < mineCount + 1 →
    Mines.placeMines mineCount draws acc = Some mines →
    NoDup mines ∧
    mineCount ≤ Qc_of_Z (Z.of_nat (length mines)) < mineCount + 1.
Proof.
  induction draws as [|u draws IH]; intros acc mines Hnd Hlen; simpl.
  - case_bool_decide as Hlt; [done|]. intros [= <-].
    by apply Qcnot_lt_le in Hlt.
  - case_bool_decide as Hlt; [|intros [= <-]; by apply Qcnot_lt_le in Hlt].
    unfold includes. case_bool_decide as Hin; [by apply IH|].
    apply IH.
    + apply NoDup_app. repeat split; [done| |apply NoDup_singleton].
      intros x Hx ->%list_elem_of_singleton. done.
    + rewrite length_app, Nat2Z.inj_add, Z2Qc_inj_add.
      change (Qc_of_Z (Z.of_nat (length [Math_floor (u * Mines.gridSize)])))
        with (Qc_of_Z 1).
      rewrite Z2Qc_inj_1. exact (proj1 (Qcplus_lt_mono_r _ _ 1) Hlt).
Qed.

Lemma mines_start_wellFormed userId amount count draws s reply s1 :
  Mines.start userId amount count draws s = Some (Ok reply, s1) →
  ∃ game m,
    count = JNumber m ∧
    minesGames s1 = <[userId := game]> (minesGames s) ∧
    mg_mineCount game = m ∧
    mg_revealedTiles game = [] ∧
    minesWellFormed game ∧
    minesPlaced game.
Proof.
  unfold Mines.start.
  destruct (match minesGames s !! userId with Some _ => _ | None => _ end);
    [done|].
  unfold Mines.startSchema.
  destruct (betAmountSchema amount) as [b|]; [|done].
  destruct (numberSchema 1 (Qc_of_Z 24) count) as [m|] eqn:Em; [|done].
  apply numberSchema_Some in Em as [-> Hm].
  case_bool_decide; [done|].
  destruct (Mines.placeMines m draws []) as [mines|] eqn:Ep; [|done].
  intros [= _ <-]. eexists _, m. simpl.
  split; [done|]. split; [done|]. split; [done|]. split; [done|]. split.
  - repeat split; try done; try apply Hm. by eapply placeMines_integers.
  - eapply placeMines_placed; [apply NoDup_nil_2| |exact Ep].
    assert (H01 : 0 < 1) by (by vm_compute).
    exact (Qcplus_pos_pos _ _ (Qclt_le_trans _ _ _ H01 (proj1 Hm)) H01).
Qed.

Lemma mines_reveal_safe userId body s tile revealed mult payout s' :
  Mines.reveal userId body s = (Ok (MinesSafe tile revealed mult payout), s') →
  ∃ game,
    minesGames s !! userId = Some game ∧
    s' = withMines
           (<[userId := mkMinesGame (mg_betAmount game) (mg_mineCount game)
                          (mg_gridSize game) (mg_minePositions game)
                          (mg_revealedTiles game ++ [tile]) (mg_isActive game)
                          (Math_pow
                             (mg_gridSize game
                              / (mg_gridSize game - mg_mineCount game))
                             (length (mg_revealedTiles game ++ [tile])))]>
              (minesGames s)) s.
Proof.
  unfold Mines.reveal.
  destruct (minesGames s !! userId) as [game|]; [|done].
  destruct (mg_isActive game) eqn:Ea; simpl; [|done].
  destruct (Mines.revealSchema body) as [t|]; [|done].
  destruct (includes (mg_revealedTiles game) t); [done|].
  destruct (includes (mg_minePositions game) t); [done|].
  intros [= <- <- <- <- <-]. exists game. by rewrite Ea.
Qed.

Lemma minesWellFormed_reveal game tile :
  minesWellFormed game →
  minesWellFormed
    (mkMinesGame (mg_betAmount game) (mg_mineCount game) (mg_gridSize game)
       (mg_minePositions game) (mg_revealedTiles game ++ [tile])
       (mg_isActive game)
       (Math_pow (mg_gridSize game / (mg_gridSize game - mg_mineCount game))
          (length (mg_revealedTiles game ++ [tile])))).
Proof.
  intros (Hint & Hgrid & Hm & Ha & Hmult). unfold minesWellFormed. simpl.
  by rewrite Hgrid.
Qed.

Lemma safeReveals_wellFormed userId tiles :
  ∀ s s2 game,
    minesGames s !! userId = Some game →
    minesWellFormed game →
    safeReveals userId tiles s = Some s2 →
    ∃ game2,
      minesGames s2 !! userId = Some game2 ∧
      minesWellFormed game2 ∧
      mg_mineCount game2 = mg_mineCount game ∧
      mg_minePositions game2 = mg_minePositions game ∧
      length (mg_revealedTiles game2)
      = (length (mg_revealedTiles game) + length tiles)%nat.
Proof.
  induction tiles as [|t tiles IH]; intros s s2 game Hg Hwf; simpl.
  - intros [= <-]. exists game. repeat split; try done; try apply Hwf; lia.
  - destruct (Mines.reveal userId t s) as [[[]|] s1] eqn:Er; try done.
    apply mines_reveal_safe in Er as (game' & Hg' & ->). simplify_eq.
    intros Hs. eapply IH in Hs as (game2 & Hg2 & Hwf2 & Hm & Hp & Hl);
      [| simpl; apply lookup_insert_eq | by apply minesWellFormed_reveal].
    simpl in *. exists game2. repeat split; try done; try apply Hwf2.
    rewrite Hl, length_app. simpl. lia.
Qed.

(** After the start of a mines session whose [mineCount] field is [m],
    [k] reveals that are all safe leave the session with [k] revealed tiles
    and the multiplier [(25 / (25 - m)) ^ k], the power that each safe
    reveal computes from the number of revealed tiles and the field; [m] is
    within [1, 24], and the grid holds [m] rounded up distinct mines. *)
Theorem mines_multiplier_after_reveals userId amount count draws s0 reply s1
    tiles s2 :
  Mines.start userId amount count draws s0 = Some (Ok reply, s1) →
  safeReveals userId tiles s1 = Some s2 →
  ∃ game m,
    count = JNumber m ∧
    1 ≤ m ≤ Qc_of_Z 24 ∧
    minesGames s2 !! userId = Some game ∧
    mg_mineCount game = m ∧
    mg_gridSize game = Qc_of_Z 25 ∧
    minesPlaced game ∧
    length (mg_revealedTiles game) = length tiles ∧
    mg_currentMultiplier game
    = (Qc_of_Z 25 / (Qc_of_Z 25 - m)) ^ length tiles.
Proof.
  intros Hs Hr.
  apply mines_start_wellFormed in Hs
    as (game & m & -> & Hg & Hm & Hrev & Hwf & Hpl).
  eapply safeReveals_wellFormed in Hr as (game2 & Hg2 & Hwf2 & Hm2 & Hp2 & Hl);
    [| rewrite Hg; apply lookup_insert_eq | done].
  rewrite Hrev in Hl. simpl in Hl.
  destruct Hwf2 as (_ & Hgrid & Hrange & _ & Hmult).
  exists game2, m. rewrite <- Hl, <- Hm, <- Hm2.
  split; [done|]. split; [done|]. split; [done|]. split; [done|].
  split; [done|]. split; [|done].
  unfold minesPlaced. by rewrite Hp2, Hm2.
Qed.

(** With a whole mine count [n] the grid holds [n] distinct mines, and [k]
    safe reveals leave the multiplier of a grid with that many mines. *)
Lemma mines_multiplier_whole_count userId amount (n : Z) draws s0 reply s1
    tiles s2 :
  Mines.start userId amount (JNumber (Qc_of_Z n)) draws s0
  = Some (Ok reply, s1) →
  safeReveals userId tiles s1 = Some s2 →
  ∃ game,
    minesGames s2 !! userId = Some game ∧
    (1 ≤ n ≤ 24)%Z ∧
    NoDup (mg_minePositions game) ∧
    Z.of_nat (length (mg_minePositions game)) = n ∧
    length (mg_revealedTiles game) = length tiles ∧
    mg_currentMultiplier game
    = multiplierOfGrid (mg_minePositions game) (length tiles).
Proof.
  intros Hs Hr.
  apply mines_start_wellFormed in Hs
    as (game & m & [= <-] & Hg & Hm & Hrev & Hwf & Hpl).
  eapply safeReveals_wellFormed in Hr as (game2 & Hg2 & Hwf2 & Hm2 & Hp2 & Hl);
    [| rewrite Hg; apply lookup_insert_eq | done].
  rewrite Hrev in Hl. simpl in Hl.
  destruct Hwf2 as (_ & Hgrid & Hrange & _ & Hmult).
  destruct Hpl as [Hnd [Hlo Hhi]].
  rewrite Hm2, Hm in Hrange. rewrite Hm in Hlo, Hhi.
  assert (Hlen : Z.of_nat (length (mg_minePositions game)) = n).
  { apply Z2Qc_inj_le in Hlo.
    rewrite <- Z2Qc_inj_1, <- Z2Qc_inj_add in Hhi.
    apply Z2Qc_inj_lt in Hhi. lia. }
  exists game2. rewrite Hp2.
  split; [done|]. split.
  { destruct Hrange as [H1 H24]. rewrite <- Z2Qc_inj_1 in H1.
    apply Z2Qc_inj_le in H1. apply Z2Qc_inj_le in H24. lia. }
  split; [done|]. split; [done|]. split; [done|].
  unfold multiplierOfGrid. by rewrite Hmult, Hl, Hm2, Hm, Hlen.
Qed.

(** C5 on the code, at the mine count 1.5: the schema accepts it, the loop
    places two mines, and one safe reveal sets the multiplier to
    25 / (25 - 1.5) = 50/47, where two mines on 25 tiles give 25/23. *)
Theorem mines_fractional_count_multiplier :
  isInteger (dec 15 10) = false ∧
  Mines.startSchema ten (JNumber (dec 15 10)) = Some (Qc_of_Z 10, dec 15 10) ∧
  match minesGames (after minesFractional) !! "alice" with
  | Some game =>
      mg_mineCount game = dec 15 10 ∧
      mg_minePositions game = [Qc_of_Z 0; Qc_of_Z 1] ∧
      mg_revealedTiles game = [Qc_of_Z 7] ∧
      mg_currentMultiplier game = dec 50 47 ∧
      multiplierOfGrid (mg_minePositions game)
        (length (mg_revealedTiles game)) = dec 25 23 ∧
      mg_currentMultiplier game
      ≠ multiplierOfGrid (mg_minePositions game)
          (length (mg_revealedTiles game))
  | None => False
  end.
Proof.
  split; [vm_compute; reflexivity|]. split; [vm_compute; reflexivity|].
  assert (Hg : minesGames (after minesFractional) !! "alice"
               = Some (mkMinesGame (Qc_of_Z 10) (dec 15 10) Mines.gridSize
                         [Qc_of_Z 0; Qc_of_Z 1] [Qc_of_Z 7] true
                         (Math_pow
                            (Mines.gridSize / (Mines.gridSize - dec 15 10))
                            1)))
    by (vm_compute; reflexivity).
  rewrite Hg. simpl.
  split; [done|]. split; [done|]. split; [done|].
  split; [apply Qc_is_canon; vm_compute; reflexivity|].
  split; [apply Qc_is_canon; vm_compute; reflexivity|].
  by vm_compute.
Qed.

(** ** Mines sessions of reachable states *)

(** What one request does to the store of mines sessions: nothing, the
    removal of the session of the user, a fresh session, or a safe reveal
    on the session of the user. *)
Lemma handle_minesGames userId r s reply s' :
  handle userId r s = Some (reply, s') →
  minesGames s' = minesGames s ∨
  minesGames s' = delete userId (minesGames s) ∨
  (∃ game, minesGames s' = <[userId := game]> (minesGames s) ∧
           minesWellFormed game ∧ mg_revealedTiles game = []) ∨
  (∃ game tile,
     minesGames s !! userId = Some game ∧
     minesGames s'
     = <[userId := mkMinesGame (mg_betAmount game) (mg_mineCount game)
                     (mg_gridSize game) (mg_minePositions game)
                     (mg_revealedTiles game ++ [tile]) (mg_isActive game)
                     (Math_pow
                        (mg_gridSize game
                         / (mg_gridSize game - mg_mineCount game))
                        (length (mg_revealedTiles game ++ [tile])))]>
         (minesGames s)).
Proof.
  intros H. destruct r; try (handler_cases H; by auto).
  - (* POST /api/mines/start *)
    destruct reply as [reply|e].
    + apply mines_start_wellFormed in H as (game & m & _ & Hg & _ & Hr & Hwf & _).
      right; right; left. by exists game.
    + apply refusal_changes_nothing in H as ->. by left.
  - (* POST /api/mines/reveal *)
    injection H as H. unfold Mines.reveal in H.
    destruct (minesGames s !! userId) as [game|] eqn:Eg;
      [|injection H as _ <-; by left].
    destruct (mg_isActive game) eqn:Ea; simpl in H;
      [|injection H as _ <-; by left].
    destruct (Mines.revealSchema tileIndex) as [t|];
      [|injection H as _ <-; by left].
    destruct (includes (mg_revealedTiles game) t); [injection H as _ <-; by left|].
    destruct (includes (mg_minePositions game) t); injection H as _ <-.
    + right; by left.
    + right; right; right. exists game, t. by rewrite Ea.
Qed.

Lemma reachable_minesWellFormed s :
  reachable s →
  ∀ userId game, minesGames s !! userId = Some game → minesWellFormed game.
Proof.
  induction 1 as [|u r s reply s' Hs IH H]; intros userId game.
  - simpl. by rewrite lookup_empty.
  - destruct (handle_minesGames _ _ _ _ _ H)
      as [->|[->|[(g & -> & Hwf & _)|(g & t & Hg & ->)]]].
    + apply IH.
    + destruct (decide (u = userId)) as [->|Hne].
      * by rewrite lookup_delete_eq.
      * rewrite lookup_delete_ne by done. apply IH.
    + destruct (decide (u = userId)) as [->|Hne].
      * rewrite lookup_insert_eq. by intros [= <-].
      * rewrite lookup_insert_ne by done. apply IH.
    + destruct (decide (u = userId)) as [->|Hne].
      * rewrite lookup_insert_eq. intros [= <-].
        apply minesWellFormed_reveal. by eapply IH.
      * rewrite lookup_insert_ne by done. apply IH.
Qed.

(** C10: in a reachable state, on the mines session of a user, a reveal
    whose [tileIndex] is a number within [0, 24] that is not an integer and
    is not among the revealed tiles passes the schema and is answered as a
    safe reveal ([hitMine: false]): the tile is pushed on the revealed
    tiles and the multiplier becomes the power for the new number of
    revealed tiles, [(25 / (25 - mineCount)) ^ (n + 1)], as for any safe
    tile. *)
Theorem mines_reveal_fractional_tile userId s game tile :
  reachable s →
  minesGames s !! userId = Some game →
  0 ≤ tile ≤ Qc_of_Z 24 →
  isInteger tile = false →
  tile ∉ mg_revealedTiles game →
  let revealed := mg_revealedTiles game ++ [tile] in
  let mult :=
    (Qc_of_Z 25 / (Qc_of_Z 25 - mg_mineCount game))
    ^ (length (mg_revealedTiles game) + 1) in
  handle userId (MinesReveal (JNumber tile)) s
  = Some (Ok (MinesSafe tile revealed mult (mg_betAmount game * mult)),
          withMines
            (<[userId := mkMinesGame (mg_betAmount game) (mg_mineCount game)
                           (mg_gridSize game) (mg_minePositions game) revealed
                           true mult]> (minesGames s)) s).
Proof.
  intros Hs Hg [Hlo Hhi] Hfrac Hnew revealed mult.
  destruct (reachable_minesWellFormed s Hs userId game Hg)
    as (Hint & Hgrid & _ & Ha & _).
  simpl. unfold Mines.reveal. rewrite Hg, Ha. simpl.
  rewrite !bool_decide_eq_true_2 by done. simpl.
  unfold includes. rewrite (bool_decide_eq_false_2 _ Hnew).
  rewrite bool_decide_eq_false_2.
  - subst revealed mult. by rewrite Hgrid, length_app.
  - intros Hin. rewrite Forall_forall in Hint. apply Hint in Hin. congruence.
Qed.

(** ** Dice *)

Lemma dice_playSchema_Some amount target direction b t d :
  Dice.playSchema amount target direction = Some (b, t, d) →
  betAmountSchema amount = Some b ∧
  target = JNumber t ∧ 1 ≤ t ≤ Qc_of_Z 99 ∧
  Dice.directionSchema direction = Some d ∧
  Dice.combinationOk d t = true.
Proof.
  unfold Dice.playSchema.
  destruct (betAmountSchema amount) as [b'|]; [|done].
  destruct (numberSchema 1 (Qc_of_Z 99) target) as [t'|] eqn:Et; [|done].
  destruct (Dice.directionSchema direction) as [d'|]; [|done].
  destruct (Dice.combinationOk d' t') eqn:Ec; [|done].
  intros [= <- <- <-]. by apply numberSchema_Some in Et as [-> Ht].
Qed.

(** On whole targets the [refine] step is the rule of its message: roll
    over needs a target of at most 98, roll under one of at least 2. *)
Lemma dice_combinationOk_integer d t :
  isInteger t = true →
  Dice.combinationOk d t = true ↔
  match d with over => t ≤ Qc_of_Z 98 | under => Qc_of_Z 2 ≤ t end.
Proof.
  intros Hi. apply bool_decide_eq_true in Hi. rewrite <- Hi.
  generalize (Qfloor t). intros z.
  destruct d; simpl; rewrite negb_true_iff, bool_decide_eq_false,
    <- ?Z2Qc_inj_1, <- !Z2Qc_inj_le; lia.
Qed.

(** An accepted play wins exactly when the roll is over (under) the target
    and then pays [betAmount * (0.98 / winChance)], with [winChance]
    [(99 - target) / 100] for over and [target / 100] for under. *)
Lemma dice_play_reply userId amount target direction u s reply s' :
  Dice.play userId amount target direction u s = (Ok reply, s') →
  ∃ b t d,
    Dice.playSchema amount target direction = Some (b, t, d) ∧
    let roll := Math_floor (u * Qc_of_Z 100) in
    let won :=
      match d with
      | over => bool_decide (t < roll)
      | under => bool_decide (roll < t)
      end in
    let winChance :=
      match d with
      | over => (Qc_of_Z 99 - t) / Qc_of_Z 100
      | under => t / Qc_of_Z 100
      end in
    reply = DiceReply roll won
              (if won then b * (dec 98 100 / winChance) else 0) t d.
Proof.
  unfold Dice.play.
  destruct (Dice.playSchema amount target direction) as [[[b t] d]|]; [|done].
  case_bool_decide; [done|]. intros [= <- _]. exists b, t, d.
  split; [done|]. by destruct d.
Qed.

(** C7 on the code, at the target 98.5 with direction over: the target is
    above 98, the schema accepts the play, and the roll 99 wins 196 times
    the bet. *)
Theorem dice_fractional_target_accepted :
  ¬ dec 985 10 ≤ Qc_of_Z 98 ∧
  Dice.playSchema ten (JNumber (dec 985 10)) (JString "over")
  = Some (Qc_of_Z 10, dec 985 10, over) ∧
  match
    (Dice.play "alice" ten (JNumber (dec 985 10)) (JString "over") (dec 99 100)
       (after aliceFunded)).1
  with
  | Ok (DiceReply roll won payout _ _) =>
      roll = Qc_of_Z 99 ∧ won = true ∧ payout = Qc_of_Z 1960
  | _ => False
  end.
Proof.
  split; [by vm_compute|]. split; [vm_compute; reflexivity|].
  vm_compute. repeat split; apply Qc_is_canon; reflexivity.
Qed.

(** ** Balances below zero *)

Lemma Qc_sub_nonneg (a b : Qc) : ¬ a < b → 0 ≤ a - b.
Proof. intros H%Qcnot_lt_le. apply Qcle_minus_iff in H. exact H. Qed.

Lemma Qc_nonneg_of_Z z : (0 ≤ z)%Z → 0 ≤ Qc_of_Z z.
Proof. intros H. rewrite <- Z2Qc_inj_0. exact (proj1 (Z2Qc_inj_le 0 z) H). Qed.

Lemma Qc_div_nonneg (a b : Qc) : 0 ≤ a → 0 < b → 0 ≤ a / b.
Proof.
  intros Ha Hb. apply Qcmult_nonneg_nonneg; [done|].
  by apply Qclt_le_weak, Qcinv_pos.
Qed.

Lemma betAmountSchema_pos v b : betAmountSchema v = Some b → 0 < b.
Proof.
  destruct v as [x|str|]; simpl; [| |done].
  - destruct (bool_decide (x ≤ 0)) eqn:E; simpl; [done|].
    destruct (bool_decide (Qc_of_Z 1000000 < x)); simpl; [done|].
    destruct (printsAsDecimal x); [|done]. intros [= <-].
    apply bool_decide_eq_false in E. by apply Qcnot_le_lt.
  - destruct (decimalOfString str) as [x|]; [|done].
    destruct (bool_decide (0 < x)) eqn:E; simpl; [|done].
    destruct (bool_decide (x ≤ Qc_of_Z 1000000)); [|done]. intros [= <-].
    by apply bool_decide_eq_true in E.
Qed.

Lemma ledgerOk_amountOrZero userId st :
  ledgerOk st → 0 ≤ Storage.amountOrZero (Storage.getBalance userId st).
Proof.
  intros H. unfold Storage.getBalance.
  destruct (find _ (balances st)) as [b|] eqn:E; simpl; [|done].
  apply find_some in E as [Hin _]. unfold ledgerOk in H.
  rewrite Forall_forall in H. by apply H, list_elem_of_In.
Qed.

Lemma ledgerOk_setAmount userId amount l :
  0 ≤ amount →
  Forall (λ b, 0 ≤ bal_amount b) l →
  Forall (λ b, 0 ≤ bal_amount b) (Storage.setAmount userId amount l).
Proof.
  intros Ha. induction 1 as [|b l Hb Hl IH]; simpl; [done|].
  case_bool_decide; by constructor.
Qed.

Lemma ledgerOk_updateBalance userId amount st :
  0 ≤ amount → ledgerOk st → ledgerOk (Storage.updateBalance userId amount st).
Proof.
  intros Ha H. unfold Storage.updateBalance, ledgerOk in *.
  destruct (Storage.getBalance userId st); simpl.
  - by apply ledgerOk_setAmount.
  - apply Forall_app. split; [done|]. by apply Forall_singleton.
Qed.

Lemma minesWellFormed_multiplier game :
  minesWellFormed game → 0 ≤ mg_currentMultiplier game.
Proof.
  intros (_ & _ & [_ Hm] & _ & ->). apply Qcpower_pos, Qc_div_nonneg.
  - by apply Qc_nonneg_of_Z.
  - assert (Hlt : Qc_of_Z 24 < Qc_of_Z 25) by (by vm_compute).
    exact (proj1 (Qclt_minus_iff _ _) (Qcle_lt_trans _ _ _ Hm Hlt)).
Qed.

Lemma crash_clock_nonneg now startTime :
  (startTime ≤ now)%Z → 0 ≤ Crash.clockMultiplier now startTime.
Proof.
  intros H. unfold Crash.clockMultiplier, Crash.elapsed.
  apply Qcplus_nonneg_nonneg; [by vm_compute|].
  apply Qcmult_nonneg_nonneg; [|by vm_compute].
  apply Qc_div_nonneg; [apply Qc_nonneg_of_Z; lia|by vm_compute].
Qed.

Lemma dice_multiplier_nonneg d t :
  1 ≤ t ≤ Qc_of_Z 99 → Dice.combinationOk d t = true →
  0 ≤ Dice.multiplier d t.
Proof.
  intros [Hlo Hhi] Hc. unfold Dice.multiplier.
  apply Qc_div_nonneg; [by vm_compute|].
  unfold Dice.winChance. destruct d; simpl in Hc;
    apply negb_true_iff, bool_decide_eq_false, Qcnot_le_lt in Hc.
  - apply Qcmult_pos_pos; [|by vm_compute].
    exact (proj1 (Qclt_minus_iff _ _) Hc).
  - apply Qcmult_pos_pos; [|by vm_compute].
    assert (H01 : 0 < 1) by (by vm_compute).
    exact (Qclt_trans _ _ _ H01 Hc).
Qed.

Lemma ledgerOk_createBet userId gameType betAmount outcome payout st :
  ledgerOk st →
  ledgerOk (Storage.createBet userId gameType betAmount outcome payout st).
Proof. done. Qed.

Lemma ledgerOk_createTransaction userId type amount st :
  ledgerOk st → ledgerOk (Storage.createTransaction userId type amount st).
Proof. done. Qed.

Lemma ledgerOk_credit userId payout st :
  ledgerOk st → 0 ≤ payout →
  ledgerOk
    (Storage.updateBalance userId
       (Storage.amountOrZero (Storage.getBalance userId st) + payout) st).
Proof.
  intros H Hp. apply ledgerOk_updateBalance; [|done].
  apply Qcplus_nonneg_nonneg; [by apply ledgerOk_amountOrZero|done].
Qed.

Lemma ledgerOk_debit userId betAmount st :
  ledgerOk st →
  ¬ Storage.amountOrZero (Storage.getBalance userId st) < betAmount →
  ledgerOk
    (Storage.updateBalance userId
       (Storage.amountOrZero (Storage.getBalance userId st) - betAmount) st).
Proof.
  intros H Hb. apply ledgerOk_updateBalance; [|done]. by apply Qc_sub_nonneg.
Qed.

Lemma tower_multiplier_nonneg d : 0 ≤ Tower.multiplier d.
Proof. by destruct d; vm_compute. Qed.

Lemma crashPoint_nonneg pw :
  0 ≤ Math_min (Math_max (dec 101 100) pw) (Qc_of_Z 1000).
Proof.
  assert (H1 : 0 ≤ dec 101 100) by (by vm_compute).
  assert (H2 : 0 ≤ Qc_of_Z 1000) by (by vm_compute).
  unfold Math_max. case_bool_decide as Hx; unfold Math_min; case_bool_decide;
    try done.
  exact (Qcle_trans _ _ _ H1 Hx).
Qed.

Lemma Math_min_nonneg a b : 0 ≤ a → 0 ≤ b → 0 ≤ Math_min a b.
Proof. intros Ha Hb. unfold Math_min. by case_bool_decide. Qed.

(** A request with checked amounts keeps the state solvent. *)
Lemma solvent_preserved userId r s reply s' :
  solvent s →
  amountsChecked userId r s →
  handle userId r s = Some (reply, s') →
  solvent s'.
Proof.
  intros (HL & HT & HC & HM) Hr. unfold solvent. destruct r; simpl in *.
  - (* GET /api/balance *)
    intros [= H]. unfold getBalanceRoute in H.
    destruct (Storage.getBalance userId (storage s)); injection H as _ <-; [done|].
    simpl. (split; [|split; [|split]]); try done.
    apply Forall_app. split; [done|]. by apply Forall_singleton.
  - (* deposit *)
    intros [= _ <-]. simpl. (split; [|split; [|split]]); try done.
    by apply ledgerOk_createTransaction, ledgerOk_credit.
  - (* POST /api/bet *)
    intros [= H]. unfold placeBet in H.
    destruct (Storage.getBalance userId (storage s)) as [bal|] eqn:Eb;
      [|by injection H as _ <-].
    case_bool_decide as Hlt; [by injection H as _ <-|].
    assert (Hnet : 0 ≤ bal_amount bal - betAmount) by (by apply Qc_sub_nonneg).
    assert (H2 : 0 ≤ Qc_of_Z 2) by (by vm_compute).
    assert (H36 : 0 ≤ Qc_of_Z 36) by (by vm_compute).
    destruct (bool_decide (gameType = "roulette")).
    + destruct (checkRouletteWin betChoice (spinRouletteWheel u));
        injection H as _ <-; simpl; ((split; [|split; [|split]]); try done);
        repeat apply ledgerOk_createTransaction;
        apply ledgerOk_updateBalance; try done.
      apply Qcplus_nonneg_nonneg; [done|]. unfold calculateRoulettePayout.
      destruct (parseInt betChoice); by apply Qcmult_nonneg_nonneg.
    + destruct (bool_decide (simulateCoinFlip u = betChoice));
        injection H as _ <-; simpl; ((split; [|split; [|split]]); try done);
        repeat apply ledgerOk_createTransaction;
        apply ledgerOk_updateBalance; try done.
      apply Qcplus_nonneg_nonneg; [done|]. by apply Qcmult_nonneg_nonneg.
  - (* POST /api/dice/play *)
    intros [= H]. unfold Dice.play in H.
    destruct (Dice.playSchema betAmount target direction) as [[[b t] d]|] eqn:Es;
      [|by injection H as _ <-].
    apply dice_playSchema_Some in Es as (Hb%betAmountSchema_pos & _ & Ht & _ & Hc).
    case_bool_decide as Hlt; [by injection H as _ <-|].
    injection H as _ <-. simpl. (split; [|split; [|split]]); try done.
    apply ledgerOk_createBet.
    destruct (Dice.wins d (Dice.rollOf u) t).
    + apply ledgerOk_createTransaction, ledgerOk_updateBalance; [|].
      * apply Qcplus_nonneg_nonneg; [by apply Qc_sub_nonneg|].
        apply Qcmult_nonneg_nonneg; [by apply Qclt_le_weak|].
        by apply dice_multiplier_nonneg.
      * by apply ledgerOk_createTransaction, ledgerOk_debit.
    + by apply ledgerOk_createTransaction, ledgerOk_debit.
  - (* POST /api/tower/start *)
    intros [= H]. unfold Tower.start in H.
    destruct (betAmountSchema betAmount) as [b|] eqn:Eb; [|by injection H as _ <-].
    apply betAmountSchema_pos, Qclt_le_weak in Eb.
    destruct (Storage.getBalance userId (storage s)) as [bal|] eqn:Ebal;
      [|by injection H as _ <-].
    case_bool_decide as Hlt; [by injection H as _ <-|].
    injection H as _ <-. simpl. (split; [|split; [|split]]); try done.
    + apply ledgerOk_createTransaction, ledgerOk_updateBalance; [|done].
      by apply Qc_sub_nonneg.
    + apply map_Forall_insert_2; [split; [done|by vm_compute]|].
      destruct (towerGames s !! userId); [by apply map_Forall_delete|done].
  - (* POST /api/tower/play *)
    intros [= H]. unfold Tower.play in H.
    destruct (Tower.playSchema difficulty) as [d|]; [|by injection H as _ <-].
    destruct (towerGames s !! userId) as [game|] eqn:Eg; [|by injection H as _ <-].
    destruct (tg_isActive game); simpl in H; [|by injection H as _ <-].
    case_bool_decide; [by injection H as _ <-|].
    destruct (map_Forall_lookup_1 _ _ _ _ HT Eg) as [Hbet Hmult].
    case_bool_decide; injection H as _ <-; simpl; (split; [|split; [|split]]); try done.
    + apply map_Forall_insert_2; [|done]. split; [done|]. simpl.
      apply Qcmult_nonneg_nonneg; [done|apply tower_multiplier_nonneg].
    + by apply map_Forall_delete.
  - (* POST /api/tower/cashout *)
    intros [= H]. unfold Tower.cashout in H.
    destruct (towerGames s !! userId) as [game|] eqn:Eg; [|by injection H as _ <-].
    destruct (tg_isActive game); simpl in H; [|by injection H as _ <-].
    destruct (map_Forall_lookup_1 _ _ _ _ HT Eg) as [Hbet Hmult].
    injection H as _ <-. simpl. (split; [|split; [|split]]); try done.
    + apply ledgerOk_createTransaction, ledgerOk_createBet, ledgerOk_credit;
        [done|]. by apply Qcmult_nonneg_nonneg.
    + by apply map_Forall_delete.
  - (* GET /api/tower/status *)
    intros [= H]. unfold Tower.status in H.
    destruct (towerGames s !! userId) as [game|]; [|by injection H as _ <-].
    by destruct (tg_isActive game); injection H as _ <-.
  - (* POST /api/crash/start *)
    intros [= H]. unfold Crash.start in H.
    destruct (match crashGames s !! userId with Some _ => _ | None => _ end);
      [by injection H as _ <-|].
    destruct (betAmountSchema betAmount) as [b|] eqn:Eb; [|by injection H as _ <-].
    apply betAmountSchema_pos, Qclt_le_weak in Eb.
    case_bool_decide as Hlt; [by injection H as _ <-|].
    injection H as _ <-. simpl. (split; [|split; [|split]]); try done.
    + by apply ledgerOk_createTransaction, ledgerOk_debit.
    + apply map_Forall_insert_2; [|done]. split; [done|apply crashPoint_nonneg].
  - (* POST /api/crash/cashout *)
    intros [= H]. unfold Crash.cashout in H.
    destruct (crashGames s !! userId) as [game|] eqn:Eg; [|by injection H as _ <-].
    destruct (cg_isActive game); simpl in H; [|by injection H as _ <-].
    destruct (cg_cashedOut game); [by injection H as _ <-|].
    destruct (map_Forall_lookup_1 _ _ _ _ HC Eg) as [Hbet Hpoint].
    case_bool_decide; injection H as _ <-; simpl; (split; [|split; [|split]]); try done;
      try (by apply map_Forall_delete).
    apply ledgerOk_createTransaction, ledgerOk_createBet, ledgerOk_credit; [done|].
    apply Qcmult_nonneg_nonneg; [done|].
    apply Math_min_nonneg; [|done]. by apply crash_clock_nonneg, Hr.
  - (* GET /api/crash/status *)
    intros [= H]. unfold Crash.status in H.
    destruct (crashGames s !! userId) as [game|]; [|by injection H as _ <-].
    destruct (cg_isActive game); simpl in H; [|by injection H as _ <-].
    case_bool_decide; injection H as _ <-; simpl; (split; [|split; [|split]]); try done.
    by apply map_Forall_delete.
  - (* POST /api/mines/start *)
    unfold Mines.start.
    destruct (match minesGames s !! userId with Some _ => _ | None => _ end);
      [by intros [= _ <-]|].
    unfold Mines.startSchema.
    destruct (betAmountSchema betAmount) as [b|] eqn:Eb; [|by intros [= _ <-]].
    apply betAmountSchema_pos, Qclt_le_weak in Eb.
    destruct (numberSchema 1 (Qc_of_Z 24) mineCount) as [m|] eqn:Em;
      [|by intros [= _ <-]].
    apply numberSchema_Some in Em as [_ Hm].
    case_bool_decide as Hlt; [by intros [= _ <-]|].
    destruct (Mines.placeMines m draws []) as [mines|] eqn:Ep; [|done].
    intros [= _ <-]. simpl. (split; [|split; [|split]]); try done.
    + by apply ledgerOk_createTransaction, ledgerOk_debit.
    + apply map_Forall_insert_2; [|done]. split; [done|].
      repeat split; try done; try apply Hm. by eapply placeMines_integers.
  - (* POST /api/mines/reveal *)
    intros [= H]. unfold Mines.reveal in H.
    destruct (minesGames s !! userId) as [game|] eqn:Eg; [|by injection H as _ <-].
    destruct (mg_isActive game); simpl in H; [|by injection H as _ <-].
    destruct (Mines.revealSchema tileIndex) as [t|]; [|by injection H as _ <-].
    destruct (includes (mg_revealedTiles game) t); [by injection H as _ <-|].
    destruct (map_Forall_lookup_1 _ _ _ _ HM Eg) as [Hbet Hwf].
    destruct (includes (mg_minePositions game) t); injection H as _ <-; simpl;
      (split; [|split; [|split]]); try done.
    + by apply map_Forall_delete.
    + apply map_Forall_insert_2; [|done]. split; [done|].
      pose proof (minesWellFormed_reveal game t Hwf) as Hwf'.
      destruct Hwf as (_ & _ & _ & Ha & _). by rewrite Ha in Hwf'.
  - (* POST /api/mines/cashout *)
    intros [= H]. unfold Mines.cashout in H.
    destruct (minesGames s !! userId) as [game|] eqn:Eg; [|by injection H as _ <-].
    destruct (mg_isActive game); simpl in H; [|by injection H as _ <-].
    case_bool_decide; [by injection H as _ <-|].
    destruct (map_Forall_lookup_1 _ _ _ _ HM Eg) as [Hbet Hwf].
    injection H as _ <-. simpl. (split; [|split; [|split]]); try done.
    + apply ledgerOk_createTransaction, ledgerOk_createBet, ledgerOk_credit;
        [done|].
      apply Qcmult_nonneg_nonneg; [done|by apply minesWellFormed_multiplier].
    + by apply map_Forall_delete.
  - (* GET /api/mines/status *)
    intros [= H]. unfold Mines.status in H.
    destruct (minesGames s !! userId) as [game|]; [|by injection H as _ <-].
    by destruct (mg_isActive game); injection H as _ <-.
Qed.

(** What holds of C8 on the code: as long as the amounts of single-shot
    bets and deposits are not negative and the clock of a crash cash-out is
    not behind the start, no balance falls below zero. *)
Lemma balances_nonnegative_when_checked s :
  reachableChecked s → ∀ userId, 0 ≤ amountOf userId s.
Proof.
  intros Hs userId. apply ledgerOk_amountOrZero.
  assert (H : solvent s); [|apply H].
  induction Hs as [|u r s reply s' _ IH Hr H].
  - split; [constructor|]. split; [|split]; apply map_Forall_empty.
  - by eapply solvent_preserved.
Qed.

(** C8 on the code, at a bet of -5 on heads with a balance of 0: the
    balance check passes, the coin shows heads, the bet is won with the
    payout -10, and the balance is written as -5. *)
Theorem negative_bet_overdraws :
  amountOf "alice" (after aliceJoins) = 0 ∧
  match
    placeBet "alice" "coinflip" (Qc_of_Z (-5)) "heads" (dec 1 4)
      (after aliceJoins)
  with
  | (Ok (BetReply (Coin side) outcome payout), s') =>
      side = "heads" ∧ outcome = win ∧ payout = Qc_of_Z (-10) ∧
      amountOf "alice" s' = Qc_of_Z (-5) ∧ amountOf "alice" s' < 0
  | _ => False
  end.
Proof.
  split; [apply Qc_is_canon; vm_compute; reflexivity|].
  vm_compute. repeat split; apply Qc_is_canon; reflexivity.
Qed.

(** The confirmation of a deposit of -100 on a balance of 0 writes the
    balance -100. *)
Lemma negative_deposit_overdraws :
  amountOf "alice" (depositConfirmed "alice" (Qc_of_Z (-100)) (after aliceJoins))
  < 0.
Proof. by vm_compute. Qed.

(** ** The scenarios *)

Lemma run_reachable rs :
  ∀ s s', reachable s → run rs s = Some s' → reachable s'.
Proof.
  induction rs as [|[u r] rs IH]; intros s s' Hs; simpl.
  - by intros [= <-].
  - destruct (handle u r s) as [[reply s1]|] eqn:E; [|done].
    apply IH. by eapply reachable_handle.
Qed.

Lemma after_reachable rs : reachable (after rs).
Proof.
  unfold after. destruct (run rs initialState) as [s|] eqn:E; simpl.
  - eapply run_reachable; [apply reachable_initial|done].
  - apply reachable_initial.
Qed.


(** alice cashes out her mines session, polls its status, and cashes out
    again. *)
Lemma cashout_twice_refused_witness :
  handle "alice" (cashoutRequest MinesG 0) minesOneSafe
  = Some (Ok (MinesCashedOut (Qc_of_Z 10 * oneOfFive) oneOfFive), minesCashedOut) ∧
  noRestart MinesG "alice" [("alice", MinesStatus)] ∧
  run [("alice", MinesStatus)] minesCashedOut = Some minesCashedOut ∧
  handle "alice" (cashoutRequest MinesG 0) minesCashedOut
  = Some (Err NoActiveSession, minesCashedOut).
Proof.
  assert (H : handle "alice" (cashoutRequest MinesG 0) minesOneSafe
              = Some (Ok (MinesCashedOut (Qc_of_Z 10 * oneOfFive) oneOfFive),
                      minesCashedOut))
    by (vm_compute; reflexivity).
  assert (Hrs : noRestart MinesG "alice" [("alice", MinesStatus)]).
  { apply Forall_singleton. simpl. intros [_ Hs]. discriminate Hs. }
  assert (Hrun : run [("alice", MinesStatus)] minesCashedOut = Some minesCashedOut)
    by (vm_compute; reflexivity).
  split; [exact H|]. split; [exact Hrs|]. split; [exact Hrun|].
  exact (cashout_twice_refused MinesG "alice" 0 minesOneSafe _ _ _ _ 0%Z H Hrs Hrun).
Defined.


(** One second after the start the clock of alice's crash shows 1.1, above
    the crash point 1.01, and she asks for the status. *)
Lemma crash_status_settles_loss_witness :
  crashGames crashActive !! "alice" = Some crashOfAlice ∧
  cg_crashPoint crashOfAlice ≤ Crash.clockMultiplier 1000 (cg_startTime crashOfAlice) ∧
  ∃ s',
    handle "alice" (CrashStatus 1000) crashActive
    = Some (Ok (CrashAutoCrashed (cg_crashPoint crashOfAlice)), s') ∧
    crashGames s' !! "alice" = None ∧
    bets (storage s')
    = bets (storage crashActive)
        ++ [mkBet (uuid (storage crashActive)) "alice" "crash"
              (cg_betAmount crashOfAlice) loss 0] ∧
    balances (storage s') = balances (storage crashActive) ∧
    transactions (storage s') = transactions (storage crashActive).
Proof.
  assert (Hg : crashGames crashActive !! "alice" = Some crashOfAlice)
    by (vm_compute; reflexivity).
  assert (Hc : cg_crashPoint crashOfAlice
               ≤ Crash.clockMultiplier 1000 (cg_startTime crashOfAlice))
    by (vm_compute; discriminate).
  split; [exact Hg|]. split; [exact Hc|].
  exact (crash_status_settles_loss "alice" 1000 crashActive crashOfAlice Hg
           eq_refl Hc).
Defined.

(** One safe reveal with five mines. *)
Lemma mines_multiplier_after_reveals_witness :
  ∃ game m,
    JNumber (Qc_of_Z 5) = JNumber m ∧
    1 ≤ m ≤ Qc_of_Z 24 ∧
    minesGames minesOneSafe !! "alice" = Some game ∧
    mg_mineCount game = m ∧
    mg_gridSize game = Qc_of_Z 25 ∧
    minesPlaced game ∧
    length (mg_revealedTiles game) = length [JNumber (Qc_of_Z 7)] ∧
    mg_currentMultiplier game
    = (Qc_of_Z 25 / (Qc_of_Z 25 - m)) ^ length [JNumber (Qc_of_Z 7)].
Proof.
  apply (mines_multiplier_after_reveals "alice" ten (JNumber (Qc_of_Z 5))
           fiveDraws (after aliceFunded)
           (MinesStarted Mines.gridSize (Qc_of_Z 5) (Qc_of_Z 10)) minesActive
           [JNumber (Qc_of_Z 7)] minesOneSafe); vm_compute; reflexivity.
Defined.

(** Five mines and one safe reveal. *)
Lemma mines_multiplier_whole_count_witness :
  ∃ game,
    minesGames minesOneSafe !! "alice" = Some game ∧
    (1 ≤ 5 ≤ 24)%Z ∧
    NoDup (mg_minePositions game) ∧
    Z.of_nat (length (mg_minePositions game)) = 5%Z ∧
    length (mg_revealedTiles game) = length [JNumber (Qc_of_Z 7)] ∧
    mg_currentMultiplier game
    = multiplierOfGrid (mg_minePositions game) (length [JNumber (Qc_of_Z 7)]).
Proof.
  apply (mines_multiplier_whole_count "alice" ten 5 fiveDraws
           (after aliceFunded)
           (MinesStarted Mines.gridSize (Qc_of_Z 5) (Qc_of_Z 10)) minesActive
           [JNumber (Qc_of_Z 7)] minesOneSafe); vm_compute; reflexivity.
Defined.


(** alice reveals the tile 0.5 of her fresh mines session. *)
Lemma mines_reveal_fractional_tile_witness :
  isInteger (dec 1 2) = false ∧
  fst <$> handle "alice" (MinesReveal (JNumber (dec 1 2))) minesActive
  = Some (Ok (MinesSafe (dec 1 2) [dec 1 2]
                ((Qc_of_Z 25 / (Qc_of_Z 25 - Qc_of_Z 5)) ^ (0 + 1))
                (Qc_of_Z 10
                 * (Qc_of_Z 25 / (Qc_of_Z 25 - Qc_of_Z 5)) ^ (0 + 1)))).
Proof.
  split; [vm_compute; reflexivity|].
  rewrite (mines_reveal_fractional_tile "alice" minesActive minesOfAlice (dec 1 2)).
  - reflexivity.
  - apply after_reachable.
  - vm_compute; reflexivity.
  - by vm_compute.
  - vm_compute; reflexivity.
  - apply not_elem_of_nil.
Defined.

(** ** The scenarios of the specification *)

(** Balance 100, mines with bet 10 and five mines, one safe reveal: the
    multiplier is 1.25; after the cash-out the balance is 102.5. *)
Example scenario_mines :
  mg_currentMultiplier <$> minesGames minesOneSafe !! "alice" = Some oneOfFive ∧
  oneOfFive = dec 125 100 ∧
  amountOf "alice" minesCashedOut = dec 1025 10.
Proof.
  split; [vm_compute; reflexivity|].
  split; apply Qc_is_canon; vm_compute; reflexivity.
Qed.

(** Balance 50, coin flip with bet 20 on heads, the coin shows tails: loss,
    payout 0, balance 30. *)
Example scenario_coin_flip :
  match
    placeBet "alice" "coinflip" (Qc_of_Z 20) "heads" (dec 3 4)
      (after (aliceJoins ++ [("alice", DepositConfirmed (Qc_of_Z 50))]))
  with
  | (Ok (BetReply (Coin side) outcome payout), s') =>
      side = "tails" ∧ outcome = loss ∧ payout = 0 ∧
      amountOf "alice" s' = Qc_of_Z 30
  | _ => False
  end.
Proof. vm_compute. repeat split; apply Qc_is_canon; reflexivity. Qed.

(** Tower with bet 10, three wins at easy: the multiplier is 3.375; the
    cash-out pays 33.75. *)
Example scenario_tower :
  (tg_currentMultiplier <$> towerGames towerThreeUp !! "alice")
  = Some (1 * dec 15 10 * dec 15 10 * dec 15 10) ∧
  1 * dec 15 10 * dec 15 10 * dec 15 10 = dec 3375 1000 ∧
  amountOf "alice" (Tower.cashout "alice" towerThreeUp).2
  = amountOf "alice" towerThreeUp + dec 3375 100.
Proof.
  split; [vm_compute; reflexivity|].
  split; apply Qc_is_canon; vm_compute; reflexivity.
Qed.
